(** * rhreports: report pages laid out on a matplotlib figure

    A shallow embedding of [src/rhreports/rhreports.py].  The class
    [rhreports] owns one A4 figure and draws a title, a demographics strip,
    a table and a footer on it by coordinate arithmetic, then saves the
    page as PDF.

    Modelling choices.
    - Numbers.  The coordinates are Python floats; they are idealised here
      as exact rationals ([Q]), so rounding is not modelled and two
      coordinate expressions are compared with [==] when they differ only
      by the laws of arithmetic.  Python ints ([len], loop counters) are
      [nat]/[Z] and enter float expressions through [qnat]/[inject_Z].
    - Effects.  Every matplotlib call mutates the figure object; the shared
      state is the [world]: the heap of figure objects, pyplot's table of
      open figures (the last one is the current figure), standard output
      and the files written.  Methods are computations in the state and
      exception monad [M]; a raised exception keeps the state reached so
      far (there is no rollback in the source).
    - The library.  What matplotlib alone decides is a parameter: the
      rendered width of a text ([bbox_width]), the decoding of an image file
      ([imread]) and the configured text colour ([rc_text_color]). *)

From Stdlib Require Import QArith ZArith List String Bool Arith Lia.
From Stdlib Require Import Permutation DecimalString Lqa.
Import ListNotations.

Set Implicit Arguments.

(** ** Python values *)

(** What the caller hands over for display: a string, an int, or any other
    object, carried with the text [str()] gives for it. *)
Inductive pyval : Type :=
| PStr (s : string)
| PInt (z : Z)
| PObj (shown : string).

Definition str (v : pyval) : string :=
  match v with
  | PStr s => s
  | PInt z => NilZero.string_of_int (Z.to_int z)
  | PObj shown => shown
  end.

Definition len (s : string) : nat := String.length s.

(** An int inside a float expression. *)
Definition qnat (n : nat) : Q := inject_Z (Z.of_nat n).

(** [np.sum] and [np.cumsum] over an integer array (of string lengths:
    far from the 64-bit bound, which is not modelled). *)
Definition np_sum (a : list nat) : nat := fold_left Nat.add a 0%nat.

Fixpoint cumsum_from (acc : nat) (a : list nat) : list nat :=
  match a with
  | [] => []
  | n :: rest => (acc + n)%nat :: cumsum_from (acc + n) rest
  end.

Definition np_cumsum (a : list nat) : list nat := cumsum_from 0 a.

(** ** The drawing surface *)

Inductive colour : Type :=
| Named (c : string)
| RGB (r g b : Q).

Inductive fsize : Type :=
| Points (p : Q)
| SizeName (n : string).

(** Keyword arguments of [Axes.text]; [None] is a keyword not passed. *)
Record text_kw : Type := {
  weight : option string;
  fontsize : option fsize;
  ha : option string;
  color : option colour;
  linespacing : option Q
}.

Definition kw (w : option string) (fs : fsize) (align : option string) : text_kw :=
  {| weight := w; fontsize := Some fs; ha := align; color := None;
     linespacing := None |}.

Inductive artist : Type :=
| Text (x y : Q) (s : pyval) (k : text_kw)
| HLine (y xmin xmax : Q) (c : colour) (linewidth : Q).

(** A decoded image: [shape0] rows and [shape1] columns of pixels. *)
Record image : Type := {
  shape0 : nat;
  shape1 : nat;
  pixels : list Q
}.

Record axes : Type := {
  rect : option (list Q);
  facecolor : option string;
  axis_on : bool;
  artists : list artist;
  shown : option (image * string)
}.

(** A figure: its size in inches, the axes [plt.subplots] made ([main],
    absent in a figure pyplot creates on its own) and the axes added later
    with [add_axes]. *)
Record figure : Type := {
  figsize : Q * Q;
  main : option axes;
  added : list axes
}.

(** ** The world *)

Record world : Type := {
  figs : list figure;
  open_figs : list nat;
  stdout : list string;
  disk : list (string * figure)
}.

(** An instance of the class: [self.fig] (and with it [self.ax], the main
    axes of that figure) and [self.margin]. *)
Record rhreports : Type := {
  fig : nat;
  margin : list Q
}.

Inductive exn : Type :=
| AssertionError
| ZeroDivisionError
| ValueError
| IndexError
| KeyError (key : string)
| UnboundLocalError (name : string)
| FileNotFoundError (path : string)
| LibraryError (msg : string).

Inductive result (A : Type) : Type :=
| Ok (a : A)
| Raise (e : exn).

Arguments Ok {A} a.
Arguments Raise {A} e.

Definition M (A : Type) : Type := world -> result A * world.

Definition ret {A} (a : A) : M A := fun w => (Ok a, w).

Definition raise {A} (e : exn) : M A := fun w => (Raise e, w).

Definition bind {A B} (m : M A) (k : A -> M B) : M B :=
  fun w =>
    match m w with
    | (Ok a, w') => k a w'
    | (Raise e, w') => (Raise e, w')
    end.

Declare Scope py_scope.
Delimit Scope py_scope with py.
Notation "x <- m ;; k" := (bind m (fun x => k))
  (at level 61, m at next level, right associativity) : py_scope.
Notation "' pat <- m ;; k" := (bind m (fun x => match x with pat => k end))
  (at level 61, pat pattern, m at next level, right associativity) : py_scope.
Notation "m ;; k" := (bind m (fun _ => k))
  (at level 61, right associativity) : py_scope.
Open Scope py_scope.

Definition assert (b : bool) : M unit :=
  if b then ret tt else raise AssertionError.

(** Python's [/] with a Python number as divisor raises on zero. *)
Definition py_div (a b : Q) : M Q :=
  if Qeq_bool b 0 then raise ZeroDivisionError else ret (a / b)%Q.

(** [x, y, width, height = pos]. *)
Definition unpack4 (pos : list Q) : M (Q * Q * Q * Q) :=
  match pos with
  | [x; y; width; height] => ret (x, y, width, height)
  | _ => raise ValueError
  end.

Definition index (l : list Q) (i : nat) : M Q :=
  match nth_error l i with
  | Some q => ret q
  | None => raise IndexError
  end.

(** Reading a local variable that a loop may have left unbound. *)
Definition local (name : string) (v : option nat) : M nat :=
  match v with
  | Some n => ret n
  | None => raise (UnboundLocalError name)
  end.

Definition print (msg : string) : M unit :=
  fun w =>
    (Ok tt, {| figs := figs w; open_figs := open_figs w;
               stdout := stdout w ++ [msg]; disk := disk w |}).

(** *** Mutating an object of the heap *)

Fixpoint update {A} (i : nat) (f : A -> A) (l : list A) : list A :=
  match l, i with
  | [], _ => []
  | a :: rest, O => f a :: rest
  | a :: rest, S j => a :: update j f rest
  end.

Definition on_fig (i : nat) (f : figure -> figure) (w : world) : world :=
  {| figs := update i f (figs w); open_figs := open_figs w;
     stdout := stdout w; disk := disk w |}.

Definition on_main (f : axes -> axes) (g : figure) : figure :=
  {| figsize := figsize g; main := option_map f (main g); added := added g |}.

Definition add_artists (l : list artist) (a : axes) : axes :=
  {| rect := rect a; facecolor := facecolor a; axis_on := axis_on a;
     artists := artists a ++ l; shown := shown a |}.

(** The effect of drawing the artists [l], in order, on [self.ax]. *)
Definition paint (self : rhreports) (l : list artist) (w : world) : world :=
  on_fig (fig self) (on_main (add_artists l)) w.

(** [self.ax.text(x, y, s, **k)] and [self.ax.axhline(...)]. *)
Definition ax_text (self : rhreports) (x y : Q) (s : pyval) (k : text_kw)
  : M unit :=
  fun w => (Ok tt, paint self [Text x y s k] w).

Definition ax_axhline (self : rhreports) (y xmin xmax : Q) (c : colour)
  (linewidth : Q) : M unit :=
  fun w => (Ok tt, paint self [HLine y xmin xmax c linewidth] w).

Definition new_axes (r : list Q) : axes :=
  {| rect := Some r; facecolor := None; axis_on := true; artists := [];
     shown := None |}.

Definition push_axes (a : axes) (g : figure) : figure :=
  {| figsize := figsize g; main := main g; added := added g ++ [a] |}.

(** [self.fig.add_axes(r)]: the handle is the position among the added
    axes of the figure. *)
Definition fig_add_axes (self : rhreports) (r : list Q) : M nat :=
  fun w =>
    (Ok (match nth_error (figs w) (fig self) with
         | Some g => List.length (added g)
         | None => O
         end),
     on_fig (fig self) (push_axes (new_axes r)) w).

Definition on_added (i : nat) (f : axes -> axes) (g : figure) : figure :=
  {| figsize := figsize g; main := main g; added := update i f (added g) |}.

(** [ax.imshow(im, interpolation=...)] followed by [ax.axis('off')]. *)
Definition ax_imshow (self : rhreports) (h : nat) (im : image)
  (interpolation : string) : M unit :=
  fun w =>
    (Ok tt,
     on_fig (fig self)
       (on_added h (fun a =>
          {| rect := rect a; facecolor := facecolor a; axis_on := axis_on a;
             artists := artists a; shown := Some (im, interpolation) |})) w).

Definition axis_off (a : axes) : axes :=
  {| rect := rect a; facecolor := facecolor a; axis_on := false;
     artists := artists a; shown := shown a |}.

Definition ax_axis_off (self : rhreports) (h : nat) : M unit :=
  fun w => (Ok tt, on_fig (fig self) (on_added h axis_off) w).

(** *** pyplot's global state *)

Definition blank_axes : axes :=
  {| rect := None; facecolor := None; axis_on := true; artists := [];
     shown := None |}.

Fixpoint last_open (l : list nat) : option nat :=
  match l with
  | [] => None
  | [i] => Some i
  | _ :: rest => last_open rest
  end.

Definition register (g : figure) : M nat :=
  fun w =>
    let id := List.length (figs w) in
    (Ok id, {| figs := figs w ++ [g]; open_figs := open_figs w ++ [id];
               stdout := stdout w; disk := disk w |}).

(** [plt.subplots(figsize=size)]: a new figure with one axes; pyplot makes
    it the current figure. *)
Definition plt_subplots (size : Q * Q) : M nat :=
  register {| figsize := size; main := Some blank_axes; added := [] |}.

(** [plt.gcf()]: the current figure; pyplot opens an empty figure of the
    default size when none is open. *)
Definition plt_gcf : M nat :=
  fun w =>
    match last_open (open_figs w) with
    | Some id => (Ok id, w)
    | None => register {| figsize := (6.4, 4.8)%Q; main := None; added := [] |} w
    end.

(** [plt.savefig(filename, format='pdf')] renders the CURRENT figure. *)
Definition plt_savefig (filename : string) : M unit :=
  id <- plt_gcf ;;
  fun w =>
    match nth_error (figs w) id with
    | Some g =>
        (Ok tt, {| figs := figs w; open_figs := open_figs w;
                   stdout := stdout w; disk := (filename, g) :: disk w |})
    | None => (Raise (LibraryError "figure destroyed"), w)
    end.

(** [plt.close(fig)] takes the figure out of pyplot's table; the object
    stays reachable through [self.fig]. *)
Definition plt_close (id : nat) : M unit :=
  fun w =>
    (Ok tt, {| figs := figs w;
               open_figs := filter (fun j => negb (Nat.eqb j id)) (open_figs w);
               stdout := stdout w; disk := disk w |}).

(** The file a path holds: the last write wins. *)
Fixpoint read_file (d : list (string * figure)) (path : string) : option figure :=
  match d with
  | [] => None
  | (p, g) :: rest => if String.eqb p path then Some g else read_file rest path
  end.

(** The surface of an instance: the figure behind [self.fig]. *)
Definition surface (self : rhreports) (w : world) : option figure :=
  nth_error (figs w) (fig self).

(** The artists on [self.ax], in drawing order. *)
Definition drawn (self : rhreports) (w : world) : list artist :=
  match surface self w with
  | Some g => match main g with Some a => artists a | None => [] end
  | None => []
  end.

(** [self] is an object of [w]: its figure exists and has its main axes. *)
Definition alive (self : rhreports) (w : world) : Prop :=
  exists g a, surface self w = Some g /\ main g = Some a.

(** ** The class *)

Local Open Scope Q_scope.

Definition set_face_off (a : axes) : axes :=
  {| rect := rect a; facecolor := Some "white"%string; axis_on := false;
     artists := artists a; shown := shown a |}.

(** [__init__] *)
Definition __init__ : M rhreports :=
  f <- plt_subplots (8.27, 11.69) ;;
  (fun w => (Ok tt, on_fig f (on_main set_face_off) w)) ;;
  ret {| fig := f; margin := [0.075; 0.075; 0.05; 0.075] |}.

Section Methods.

(** The width, in data coordinates of [self.ax], of the window extent the
    renderer gives a text artist; the renderer raises on a text it cannot
    lay out (a title with invalid mathtext). *)
Variable bbox_width : world -> rhreports -> artist -> result Q.

(** [plt.imread]; the argument is [None] when the caller passes Python's
    [None]. *)
Variable imread : option string -> result image.

(** [mpl.rcParams['text.color']]. *)
Variable rc_text_color : colour.

Definition bold : option string := Some "bold"%string.
Definition left_ : option string := Some "left"%string.
Definition right_ : option string := Some "right"%string.

Definition set_title (self : rhreports) (ypos : Q) (title : string)
  (subtitle : option string) : M unit :=
  xpos <- index (margin self) 3 ;;
  let titleax := Text xpos ypos (PStr title) (kw bold (Points 24) None) in
  ax_text self xpos ypos (PStr title) (kw bold (Points 24) None) ;;
  match subtitle with
  | None => ret tt
  | Some sub =>
      bbw <- (fun w => (bbox_width w self titleax, w)) ;;
      let xpos := xpos + (bbw - 0.005 * qnat (len title)) in
      ax_text self xpos ypos (PStr sub) (kw None (Points 16) None)
  end.

Definition add_text (self : rhreports) (xpos ypos : Q) (txt : pyval)
  (kwargs : text_kw) : M unit :=
  ax_text self xpos ypos txt kwargs.

Fixpoint axes_loop (self : rhreports) (x y colwidth height : Q)
  (range : list nat) (axs : list nat) : M (list nat) :=
  match range with
  | [] => ret axs
  | i :: rest =>
      a <- fig_add_axes self [x + qnat i * colwidth; y; colwidth; height] ;;
      axes_loop self x y colwidth height rest (axs ++ [a])
  end.

Definition create_axes (self : rhreports) (pos : list Q) (ncols : Z)
  : M (list nat) :=
  '(x, y, width, height) <- unpack4 pos ;;
  assert (Qle_bool (x + width) 1) ;;
  colwidth <- py_div width (inject_Z ncols) ;;
  axes_loop self x y colwidth height (seq 0 (Z.to_nat ncols)) [].

Definition field_strlen (f : string * pyval) : nat :=
  Nat.max (len (fst f)) (len (str (snd f))).

Fixpoint fields_loop (self : rhreports) (x y width : Q) (nfields : nat)
  (x0 colwidth : Q) (cumsum : list nat) (i : nat)
  (items : list (string * pyval)) : M unit :=
  match items with
  | [] => ret tt
  | (k, v) :: rest =>
      let xpos :=
        if Nat.eqb i 0 then x0
        else x0 + (qnat (nth (i - 1) cumsum O) * colwidth) in
      (if Nat.ltb 1 nfields && Nat.eqb i (nfields - 1) then
         ax_text self (x + width - 0.01) (y - 0.015) (PStr k)
           (kw None (Points 7) right_) ;;
         ax_text self (x + width - 0.01) (y - 0.03) v
           (kw None (Points 9) right_)
       else
         ax_text self xpos (y - 0.015) (PStr k) (kw None (Points 7) left_) ;;
         ax_text self xpos (y - 0.03) v (kw None (Points 9) left_)) ;;
      fields_loop self x y width nfields x0 colwidth cumsum (S i) rest
  end.

Definition set_demographics (self : rhreports) (pos : list Q)
  (fields : list (string * pyval)) : M unit :=
  '(x, y, width, height) <- unpack4 pos ;;
  assert (Qle_bool (x + width) 1) ;;
  let ymax := y in
  let ymin := y - height in
  ax_axhline self ymax x (x + width) (Named "k") 1 ;;
  ax_axhline self ymin x (x + width) (Named "k") 1 ;;
  let nfields := List.length fields in
  if Nat.eqb nfields 0 then ret tt
  else
    let strlen := map field_strlen fields in
    (* the divisor is a numpy integer: numpy does not raise on zero *)
    let colwidth := (width - 0.02) / qnat (np_sum strlen) in
    let x0 := x + 0.01 in
    let cumsum := np_cumsum strlen in
    fields_loop self x y width nfields x0 colwidth cumsum 0 fields.

(** The table: [data] maps each column name to its rows (row label to cell
    value), in insertion order. *)
Definition table : Type := list (string * list (string * pyval)).

Definition light_gray : colour := RGB 0.9 0.9 0.9.

(** The header loop [for col, key in enumerate(data.keys())]; it returns
    the binding it leaves in the local [col]. *)
Fixpoint header_loop (self : rhreports) (x y colwidth : Q) (rowheader : nat)
  (col : nat) (keys : list string) (bound : option nat) : M (option nat) :=
  match keys with
  | [] => ret bound
  | key :: rest =>
      ax_text self (x + 0.015 + qnat (col + rowheader) * colwidth) (y - 0.03)
        (PStr key) (kw bold (Points 8) left_) ;;
      header_loop self x y colwidth rowheader (S col) rest (Some col)
  end.

(** The inner loop [for row, (key, value) in enumerate(values.items())]. *)
Fixpoint rows_loop (self : rhreports) (x y colwidth : Q) (rowheader : bool)
  (col row : nat) (values : list (string * pyval)) (bound : option nat)
  : M (option nat) :=
  match values with
  | [] => ret bound
  | (key, value) :: rest =>
      (if Nat.eqb col 0 && rowheader then
         ax_text self (x + 0.01) (y - 0.06 - (qnat row * 0.025)) (PStr key)
           (kw bold (Points 8) None) ;;
         let xmin := x in
         let xmax := x + colwidth in
         ax_axhline self (y - 0.069 - (qnat row * 0.025)) xmin xmax
           light_gray 1
       else ret tt) ;;
      let i := (col + (if rowheader then 1 else 0))%nat in
      ax_text self (x + 0.015 + qnat i * colwidth)
        (y - 0.06 - (qnat row * 0.025)) value (kw None (Points 8) left_) ;;
      let xmin := x + 0.01 + qnat i * colwidth in
      let xmax := x + qnat (i + 1) * colwidth in
      ax_axhline self (y - 0.069 - (qnat row * 0.025)) xmin xmax light_gray 1 ;;
      rows_loop self x y colwidth rowheader col (S row) rest (Some row)
  end.

(** The outer loop [for col, (_, values) in enumerate(data.items())]; it
    returns the bindings left in [col] and [row]. *)
Fixpoint body_loop (self : rhreports) (x y colwidth : Q) (rowheader : bool)
  (col : nat) (items : table) (bound : option nat * option nat)
  : M (option nat * option nat) :=
  match items with
  | [] => ret bound
  | (_, values) :: rest =>
      row <- rows_loop self x y colwidth rowheader col 0 values (snd bound) ;;
      body_loop self x y colwidth rowheader (S col) rest (Some col, row)
  end.

Definition create_table (self : rhreports) (pos : list Q) (data : table)
  (rowheader : bool) : M unit :=
  '(x, y, width, _) <- unpack4 pos ;;
  assert (Qle_bool (x + width) 1) ;;
  let ncols := (List.length data + (if rowheader then 1 else 0))%nat in
  colwidth <- py_div width (qnat ncols) ;;
  ax_axhline self (y - 0.01) x (x + width) (Named "k") 1 ;;
  col <- header_loop self x y colwidth (if rowheader then 1 else 0) 0
           (map fst data) None ;;
  ax_axhline self (y - 0.04) x (x + width) (Named "k") 1 ;;
  '(col, row) <- body_loop self x y colwidth rowheader 0 data (col, None) ;;
  c <- local "col" col ;;
  let xmin := x + 0.01 + qnat c * colwidth in
  let xmax := x + qnat (c + 1) * colwidth in
  r <- local "row" row ;;
  ax_axhline self (y - 0.069 - (qnat r * 0.025)) xmin xmax light_gray 1.

(** One footer entry: the dict under a position key, with the keys the
    method reads; [None] is a key that is absent. *)
Record entry : Type := {
  e_type : option string;
  e_content : option pyval;
  e_color : option colour;
  e_fontsize : option fsize;
  e_linespacing : option Q;
  e_src : option string;
  e_height : option Q
}.

Definition footer : Type := list (string * entry).

Fixpoint lookup (data : footer) (pos : string) : option entry :=
  match data with
  | [] => None
  | (p, e) :: rest => if String.eqb p pos then Some e else lookup rest pos
  end.

(** [d[key]] on a key that may be absent. *)
Definition getitem {A} (key : string) (v : option A) : M A :=
  match v with
  | Some a => ret a
  | None => raise (KeyError key)
  end.

Definition default {A} (v : option A) (d : A) : A :=
  match v with
  | Some a => a
  | None => d
  end.

Inductive zone : Type := left | center | right.

Definition zone_name (z : zone) : string :=
  match z with
  | left => "left"
  | center => "center"
  | right => "right"
  end.

(** The body of the loop [for pos in ['left', 'center', 'right']]. *)
Definition footer_step (self : rhreports) (data : footer) (ypos : Q)
  (pos : zone) : M unit :=
  match lookup data (zone_name pos) with
  | None => ret tt
  | Some e =>
      ty <- getitem "type" (e_type e) ;;
      if String.eqb ty "text" then
        let textcolor := default (e_color e) rc_text_color in
        let fontsize := default (e_fontsize e) (SizeName "x-small") in
        let linespacing := default (e_linespacing e) 1.5 in
        xpos <- match pos with
                | left => index (margin self) 3
                | center => ret 0.5
                | right => m <- index (margin self) 1 ;; ret (1 - m)
                end ;;
        content <- getitem "content" (e_content e) ;;
        ax_text self xpos ypos content
          {| weight := None; fontsize := Some fontsize;
             ha := Some (zone_name pos); color := Some textcolor;
             linespacing := Some linespacing |}
      else if String.eqb ty "img" then
        pngfile <- match e_src e with
                   | Some s => ret (Some s)
                   | None => print "Error: src not found" ;; ret None
                   end ;;
        im <- (fun w => (imread pngfile, w)) ;;
        height <- match e_height e with
                  | Some h => ret h
                  | None => m <- index (margin self) 0 ;; ret ((1 - m - ypos) / 15)
                  end ;;
        width <- py_div (qnat (shape1 im) * height) (qnat (shape0 im)) ;;
        xpos <- match pos with
                | left => index (margin self) 3
                | center => ret (0.5 - width / 2)
                | right => m <- index (margin self) 1 ;; ret (1 - m - width)
                end ;;
        ax <- fig_add_axes self [xpos; ypos - 0.008; width; height] ;;
        ax_imshow self ax im "none" ;;
        ax_axis_off self ax
      else ret tt
  end.

Definition set_footer (self : rhreports) (data : footer) (ypos : option Q)
  : M unit :=
  ypos <- match ypos with
          | None => index (margin self) 2
          | Some y => ret y
          end ;;
  footer_step self data ypos left ;;
  footer_step self data ypos center ;;
  footer_step self data ypos right.

Definition save (self : rhreports) (filename : string) : M string :=
  plt_savefig filename ;;
  plt_close (fig self) ;;
  ret filename.

End Methods.

(** A first instance in an empty interpreter, for concrete runs. *)
Definition boot : world :=
  {| figs := []; open_figs := []; stdout := []; disk := [] |}.

Definition report0 : rhreports :=
  {| fig := 0; margin := [0.075; 0.075; 0.05; 0.075] |}.

Definition page0 : world := snd (__init__ boot).

(** ** Pure views used by the statements *)

(** The x-start of field [i] of a demographics strip, in the words of the
    specification: the fields share [width - 0.02] in proportion to
    [max(len(label), len(str(value)))], behind an inset of [0.01]. *)
Definition col_width (width : Q) (fields : list (string * pyval)) : Q :=
  (width - 0.02) / qnat (np_sum (map field_strlen fields)).

Definition field_start (x width : Q) (fields : list (string * pyval))
  (i : nat) : Q :=
  match i with
  | O => x + 0.01
  | S _ =>
      x + 0.01
      + qnat (np_sum (firstn i (map field_strlen fields)))
        * col_width width fields
  end.

(** The two texts one round of [fields_loop] draws. *)
Definition field_artists (x y width : Q) (nfields : nat) (x0 colwidth : Q)
  (cumsum : list nat) (i : nat) (f : string * pyval) : list artist :=
  let xpos :=
    if Nat.eqb i 0 then x0
    else x0 + (qnat (nth (i - 1) cumsum O) * colwidth) in
  if Nat.ltb 1 nfields && Nat.eqb i (nfields - 1) then
    [Text (x + width - 0.01) (y - 0.015) (PStr (fst f)) (kw None (Points 7) right_);
     Text (x + width - 0.01) (y - 0.03) (snd f) (kw None (Points 9) right_)]
  else
    [Text xpos (y - 0.015) (PStr (fst f)) (kw None (Points 7) left_);
     Text xpos (y - 0.03) (snd f) (kw None (Points 9) left_)].

Fixpoint fields_artists (x y width : Q) (nfields : nat) (x0 colwidth : Q)
  (cumsum : list nat) (i : nat) (items : list (string * pyval))
  : list artist :=
  match items with
  | [] => []
  | f :: rest =>
      field_artists x y width nfields x0 colwidth cumsum i f
      ++ fields_artists x y width nfields x0 colwidth cumsum (S i) rest
  end.

Definition strip_lines (x y width height : Q) : list artist :=
  [HLine y x (x + width) (Named "k") 1;
   HLine (y - height) x (x + width) (Named "k") 1].

(** The last two artists of a drawing. *)
Definition last_two (l : list artist) : list artist :=
  skipn (List.length l - 2) l.

(** ** Stand-ins for the library in concrete runs *)

(** A renderer that gives every character the same width and, like the
    library, refuses the unfinished mathtext ["$$"]. *)
Definition ruler (w : world) (self : rhreports) (t : artist) : result Q :=
  match t with
  | Text _ _ s _ =>
      if String.eqb (str s) "$$" then Raise ValueError
      else Ok (0.02 * qnat (len (str s)))
  | HLine _ _ _ _ _ => Ok 0
  end.

(** A strip of three fields. *)
Definition patient : list (string * pyval) :=
  [("Name"%string, PStr "Ada Lovelace"); ("Age"%string, PInt 36);
   ("Date"%string, PObj "2024-01-31")].

(** *** What the loops of [create_table] draw and leave bound *)

(** The index a [for ... in enumerate(l)] loop counting from [start] leaves
    in its variable: the last one, or the earlier binding over no item. *)
Definition last_index {A} (start : nat) (l : list A) (bound : option nat)
  : option nat :=
  match l with
  | [] => bound
  | _ :: _ => Some (start + List.length l - 1)%nat
  end.

Fixpoint header_artists (x y colwidth : Q) (rowheader col : nat)
  (keys : list string) : list artist :=
  match keys with
  | [] => []
  | key :: rest =>
      Text (x + 0.015 + qnat (col + rowheader) * colwidth) (y - 0.03)
        (PStr key) (kw bold (Points 8) left_)
      :: header_artists x y colwidth rowheader (S col) rest
  end.

Definition cell_artists (x y colwidth : Q) (rowheader : bool) (col row : nat)
  (item : string * pyval) : list artist :=
  let i := (col + (if rowheader then 1 else 0))%nat in
  (if Nat.eqb col 0 && rowheader then
     [Text (x + 0.01) (y - 0.06 - (qnat row * 0.025)) (PStr (fst item))
        (kw bold (Points 8) None);
      HLine (y - 0.069 - (qnat row * 0.025)) x (x + colwidth) light_gray 1]
   else [])
  ++ [Text (x + 0.015 + qnat i * colwidth) (y - 0.06 - (qnat row * 0.025))
        (snd item) (kw None (Points 8) left_);
      HLine (y - 0.069 - (qnat row * 0.025)) (x + 0.01 + qnat i * colwidth)
        (x + qnat (i + 1) * colwidth) light_gray 1].

Fixpoint rows_artists (x y colwidth : Q) (rowheader : bool) (col row : nat)
  (values : list (string * pyval)) : list artist :=
  match values with
  | [] => []
  | item :: rest =>
      cell_artists x y colwidth rowheader col row item
      ++ rows_artists x y colwidth rowheader col (S row) rest
  end.

Fixpoint body_artists (x y colwidth : Q) (rowheader : bool) (col : nat)
  (items : table) : list artist :=
  match items with
  | [] => []
  | (_, values) :: rest =>
      rows_artists x y colwidth rowheader col 0 values
      ++ body_artists x y colwidth rowheader (S col) rest
  end.

Fixpoint body_row (items : table) (bound : option nat) : option nat :=
  match items with
  | [] => bound
  | (_, values) :: rest => body_row rest (last_index 0 values bound)
  end.

(** Everything [create_table] draws before its closing divider. *)
Definition grid_artists (x y width colwidth : Q) (rowheader : bool)
  (data : table) : list artist :=
  [HLine (y - 0.01) x (x + width) (Named "k") 1]
  ++ header_artists x y colwidth (if rowheader then 1 else 0) 0 (map fst data)
  ++ [HLine (y - 0.04) x (x + width) (Named "k") 1]
  ++ body_artists x y colwidth rowheader 0 data.

(** The closing divider, drawn from what the loops left in [col] and
    [row]. *)
Definition closing_divider (self : rhreports) (x y colwidth : Q)
  (col row : option nat) : M unit :=
  c <- local "col" col ;;
  let xmin := x + 0.01 + qnat c * colwidth in
  let xmax := x + qnat (c + 1) * colwidth in
  r <- local "row" row ;;
  ax_axhline self (y - 0.069 - (qnat r * 0.025)) xmin xmax light_gray 1.

(** A table of two columns with two rows each. *)
Definition labs : table :=
  [("Before"%string, [("Hb"%string, PInt 7); ("CRP"%string, PInt 12)]);
   ("After"%string, [("Hb"%string, PInt 8); ("CRP"%string, PInt 3)])].

(** *** The footer *)

(** The axes the image branch of [set_footer] leaves on the figure. *)
Definition image_axes (r : list Q) (im : image) : axes :=
  {| rect := Some r; facecolor := None; axis_on := false; artists := [];
     shown := Some (im, "none"%string) |}.

(** The axes added to the figure of [self] so far. *)
Definition added_axes (self : rhreports) (w : world) : list axes :=
  match surface self w with
  | Some g => added g
  | None => []
  end.

(** [w'] still has the object [self], with every axes added by [w]. *)
Definition grows (self : rhreports) (w w' : world) : Prop :=
  alive self w' /\ incl (added_axes self w) (added_axes self w').

(** A computation that, from a world with [self], leads to a world that
    still has it and every axes added to it. *)
Definition keeping (self : rhreports) {A} (m : M A) : Prop :=
  forall w, alive self w -> grows self w (snd (m w)).

(** A computation that leaves the surface of the instance [a] as it was. *)
Definition leaving (a : rhreports) {A} (m : M A) : Prop :=
  forall w, surface a (snd (m w)) = surface a w.

(** The footer spec without the entry under [key]. *)
Definition remove_key (key : string) (data : footer) : footer :=
  filter (fun p => negb (String.eqb (fst p) key)) data.

Definition no_entry : entry :=
  {| e_type := None; e_content := None; e_color := None; e_fontsize := None;
     e_linespacing := None; e_src := None; e_height := None |}.

Definition text_entry (s : string) : entry :=
  {| e_type := Some "text"%string; e_content := Some (PStr s);
     e_color := None; e_fontsize := None; e_linespacing := None;
     e_src := None; e_height := None |}.

Definition img_entry (src : option string) (height : option Q) : entry :=
  {| e_type := Some "img"%string; e_content := None; e_color := None;
     e_fontsize := None; e_linespacing := None; e_src := src;
     e_height := height |}.

Definition typed_entry (ty : string) : entry :=
  {| e_type := Some ty; e_content := None; e_color := None;
     e_fontsize := None; e_linespacing := None; e_src := None;
     e_height := None |}.

(** A file system with one image, 40 rows of 120 pixels; like the library,
    the stand-in raises on a missing file and on [None]. *)
Definition logo : image := {| shape0 := 40; shape1 := 120; pixels := [] |}.

Definition imread_logo (fname : option string) : result image :=
  match fname with
  | Some f =>
      if String.eqb f "logo.png" then Ok logo else Raise (FileNotFoundError f)
  | None => Raise (LibraryError "'NoneType' object has no attribute 'read'")
  end.

Definition black : colour := Named "black".

(** A footer with a line of text on the left and the logo on the right. *)
Definition letterhead : footer :=
  [("left"%string, text_entry "Region H");
   ("right"%string, img_entry (Some "logo.png"%string) (Some 0.05))].

Definition zone_eq_dec (a b : zone) : {a = b} + {a <> b}.
Proof. decide equality. Defined.

(** A footer whose centre entry has a type the method does not know. *)
Definition odd_footer : footer :=
  [("left"%string, text_entry "Region H");
   ("center"%string, typed_entry "table")].

(** Two reports in one interpreter: [a] is created first, then [b]; a
    title is drawn on [b]; then [a] is saved. *)
Definition report1 : rhreports :=
  {| fig := 1; margin := [0.075; 0.075; 0.05; 0.075] |}.

Definition two_reports : M (rhreports * rhreports * string) :=
  a <- __init__ ;;
  b <- __init__ ;;
  set_title ruler b 0.9 "B" None ;;
  filename <- save a "a.pdf" ;;
  ret (a, b, filename).

Definition after_two_reports : world := snd (two_reports boot).

(** ** Invariants of the methods *)

(** A computation that keeps the object [self] and only appends to the
    artists of [self.ax]. *)
Definition appending (self : rhreports) {A} (m : M A) : Prop :=
  forall w,
    alive self w ->
    alive self (snd (m w))
    /\ exists l, drawn self (snd (m w)) = drawn self w ++ l.

(** A computation that stays off pyplot's table of open figures and off the
    files, and neither creates nor drops a figure object. *)
Definition offstage {A} (m : M A) : Prop :=
  forall w,
    open_figs (snd (m w)) = open_figs w
    /\ disk (snd (m w)) = disk w
    /\ List.length (figs (snd (m w))) = List.length (figs w).

(** The page a new report starts with: A4, white, frame off, nothing drawn. *)
Definition blank_page : figure :=
  {| figsize := (8.27, 11.69);
     main := Some {| rect := None; facecolor := Some "white"%string;
                     axis_on := false; artists := []; shown := None |};
     added := [] |}.

(** The figure pyplot opens by itself when none is open. *)
Definition default_figure : figure :=
  {| figsize := (6.4, 4.8); main := None; added := [] |}.

(** The report [__init__] returns in a world with [n] figure objects. *)
Definition report_at (n : nat) : rhreports :=
  {| fig := n; margin := [0.075; 0.075; 0.05; 0.075] |}.

(** The figure with the axes [l] added after those it has. *)
Definition push_all (l : list axes) (g : figure) : figure :=
  {| figsize := figsize g; main := main g; added := added g ++ l |}.

(** The axes [create_axes] allocates for column [i]. *)
Definition column_axes (x y colwidth height : Q) (i : nat) : axes :=
  new_axes [x + qnat i * colwidth; y; colwidth; height].

Definition is_text (t : artist) : bool :=
  match t with
  | Text _ _ _ _ => true
  | HLine _ _ _ _ _ => false
  end.

(** A text is anchored between [lo] and [hi]; a line always qualifies. *)
Definition anchored_within (lo hi : Q) (t : artist) : Prop :=
  match t with
  | Text xs _ _ _ => lo <= xs /\ xs <= hi
  | HLine _ _ _ _ _ => True
  end.

(** A text in bold sits on the header line [ybase]; other artists qualify. *)
Definition bold_only_at (ybase : Q) (t : artist) : Prop :=
  match t with
  | Text _ ty _ k => weight k = Some "bold"%string -> ty = ybase
  | HLine _ _ _ _ _ => True
  end.

(** Where [set_footer] anchors the text of a zone. *)
Definition text_anchor (pos : zone) (mr ml : Q) : Q :=
  match pos with
  | left => ml
  | center => 0.5
  | right => 1 - mr
  end.

(** Where [set_footer] puts the left edge of the image of a zone. *)
Definition image_left (pos : zone) (mr ml width : Q) : Q :=
  match pos with
  | left => ml
  | center => 0.5 - width / 2
  | right => 1 - mr - width
  end.

(** The keyword arguments of a footer text, with the defaults for the keys
    the entry leaves out. *)
Definition footer_kw (rc_text_color : colour) (pos : zone) (e : entry)
  : text_kw :=
  {| weight := None;
     fontsize := Some (default (e_fontsize e) (SizeName "x-small"));
     ha := Some (zone_name pos);
     color := Some (default (e_color e) rc_text_color);
     linespacing := Some (default (e_linespacing e) 1.5) |}.

(** A footer with keys in another order and a key the method never reads. *)
Definition shuffled_letterhead : footer :=
  [("right"%string, img_entry (Some "logo.png"%string) (Some 0.05));
   ("top"%string, text_entry "ignored");
   ("left"%string, text_entry "Region H")].

(** ** Reasoning about the heap and the monad *)

Lemma update_ext {A} (f g : A -> A) (i : nat) (l : list A) :
  (forall a, f a = g a) -> update i f l = update i g l.
Proof.
  intros E. revert i.
  induction l as [|a l IH]; intros [|i]; simpl; try reflexivity.
  - now rewrite E.
  - now rewrite IH.
Qed.

Lemma update_update {A} (f g : A -> A) (i : nat) (l : list A) :
  update i f (update i g l) = update i (fun a => f (g a)) l.
Proof.
  revert i.
  induction l as [|a l IH]; intros [|i]; simpl; try reflexivity.
  now rewrite IH.
Qed.

Lemma update_id {A} (f : A -> A) (i : nat) (l : list A) :
  (forall a, f a = a) -> update i f l = l.
Proof.
  intros E. revert i.
  induction l as [|a l IH]; intros [|i]; simpl; try reflexivity.
  - now rewrite E.
  - now rewrite IH.
Qed.

Lemma nth_error_update {A} (f : A -> A) (i j : nat) (l : list A) :
  nth_error (update i f l) j =
  if Nat.eqb i j then option_map f (nth_error l j) else nth_error l j.
Proof.
  revert i j.
  induction l as [|a l IH]; intros [|i] [|j]; simpl; try reflexivity.
  - now destruct (Nat.eqb i j).
  - apply IH.
Qed.

Lemma add_artists_nil (a : axes) : add_artists [] a = a.
Proof. destruct a; unfold add_artists; simpl. now rewrite app_nil_r. Qed.

Lemma add_artists_app (l1 l2 : list artist) (a : axes) :
  add_artists l2 (add_artists l1 a) = add_artists (l1 ++ l2) a.
Proof. unfold add_artists; simpl. now rewrite app_assoc. Qed.

Lemma paint_nil (self : rhreports) (w : world) : paint self [] w = w.
Proof.
  destruct w as [fs op out dk]. unfold paint, on_fig; simpl. f_equal.
  apply update_id. intros [sz [a|] ad]; unfold on_main; simpl; try reflexivity.
  now rewrite add_artists_nil.
Qed.

Lemma paint_paint (self : rhreports) (l1 l2 : list artist) (w : world) :
  paint self l2 (paint self l1 w) = paint self (l1 ++ l2) w.
Proof.
  unfold paint, on_fig; simpl. f_equal.
  rewrite update_update. apply update_ext.
  intros [sz [a|] ad]; unfold on_main; simpl; try reflexivity.
  now rewrite add_artists_app.
Qed.

Lemma surface_paint (self : rhreports) (l : list artist) (w : world) :
  surface self (paint self l w) =
  option_map (on_main (add_artists l)) (surface self w).
Proof.
  unfold surface, paint, on_fig; simpl.
  rewrite nth_error_update. now rewrite Nat.eqb_refl.
Qed.

Lemma alive_paint (self : rhreports) (l : list artist) (w : world) :
  alive self w -> alive self (paint self l w).
Proof.
  intros (g & a & Hg & Ha). unfold alive. rewrite surface_paint, Hg. simpl.
  exists (on_main (add_artists l) g), (add_artists l a). split; [reflexivity|].
  unfold on_main; simpl. now rewrite Ha.
Qed.

Lemma drawn_paint (self : rhreports) (l : list artist) (w : world) :
  alive self w -> drawn self (paint self l w) = drawn self w ++ l.
Proof.
  intros (g & a & Hg & Ha). unfold drawn. rewrite surface_paint, Hg. simpl.
  now rewrite Ha.
Qed.

Lemma Qle_bool_false (q : Q) : 1 < q -> Qle_bool q 1 = false.
Proof.
  intros H. destruct (Qle_bool q 1) eqn:E; [|reflexivity].
  apply Qle_bool_iff in E. exfalso. exact (Qlt_not_le _ _ H E).
Qed.

Lemma Qle_bool_true (q : Q) : q <= 1 -> Qle_bool q 1 = true.
Proof. intros H. now apply Qle_bool_iff. Qed.

Lemma init_boot : fst (__init__ boot) = Ok report0.
Proof. reflexivity. Qed.

Lemma alive_page0 : alive report0 page0.
Proof.
  unfold alive, surface. cbn. eexists. eexists. split; reflexivity.
Qed.

(** ** Concrete runs *)

Example region_sum : 0.8 + 0.3 == 1.1.
Proof. reflexivity. Qed.

Example patient_strlen : map field_strlen patient = [12; 3; 10]%nat.
Proof. reflexivity. Qed.

Example patient_cumsum : np_cumsum [12; 3; 10]%nat = [12; 15; 25]%nat.
Proof. reflexivity. Qed.

(** [0.1 + 0.01 + 12 * (0.78 / 25)] *)
Example patient_age_start : field_start 0.1 0.8 patient 1 == 0.4844.
Proof. reflexivity. Qed.

Example strip_of_three :
  drawn report0
    (snd (set_demographics report0 [0.1; 0.8; 0.8; 0.04] patient page0))
  = strip_lines 0.1 0.8 0.8 0.04
    ++ [Text (0.1 + 0.01) (0.8 - 0.015) (PStr "Name") (kw None (Points 7) left_);
        Text (0.1 + 0.01) (0.8 - 0.03) (PStr "Ada Lovelace")
          (kw None (Points 9) left_);
        Text (0.1 + 0.01 + qnat 12 * ((0.8 - 0.02) / qnat 25)) (0.8 - 0.015)
          (PStr "Age") (kw None (Points 7) left_);
        Text (0.1 + 0.01 + qnat 12 * ((0.8 - 0.02) / qnat 25)) (0.8 - 0.03)
          (PInt 36) (kw None (Points 9) left_);
        Text (0.1 + 0.8 - 0.01) (0.8 - 0.015) (PStr "Date")
          (kw None (Points 7) right_);
        Text (0.1 + 0.8 - 0.01) (0.8 - 0.03) (PObj "2024-01-31")
          (kw None (Points 9) right_)].
Proof. reflexivity. Qed.

(** With a row header the closing divider of [labs] starts at column
    index 1 although the last data column is drawn at index 2. *)
Example table_of_labs_returns :
  fst (create_table report0 [0.1; 0.8; 0.8; 0.3] labs true page0) = Ok tt
  /\ last (drawn report0
             (snd (create_table report0 [0.1; 0.8; 0.8; 0.3] labs true page0)))
          (HLine 0 0 0 light_gray 0)
     = HLine (0.8 - 0.069 - (qnat 1 * 0.025))
         (0.1 + 0.01 + qnat 1 * (0.8 / qnat 3))
         (0.1 + qnat 2 * (0.8 / qnat 3)) light_gray 1.
Proof. split; reflexivity. Qed.

(** ** Region bounds *)

(** C1.  A region with [left + width > 1] makes [create_axes],
    [set_demographics] and [create_table] raise the assertion error at once,
    and the world after the failing call is the world before it: nothing is
    drawn and everything drawn earlier is still there. *)
Theorem region_out_of_bounds_draws_nothing :
  forall (self : rhreports) (x y width height : Q) (ncols : Z)
         (fields : list (string * pyval)) (data : table) (rowheader : bool)
         (w : world),
    1 < x + width ->
    create_axes self [x; y; width; height] ncols w = (Raise AssertionError, w)
    /\ set_demographics self [x; y; width; height] fields w
       = (Raise AssertionError, w)
    /\ create_table self [x; y; width; height] data rowheader w
       = (Raise AssertionError, w).
Proof.
  intros self x y width height ncols fields data rowheader w H.
  apply Qle_bool_false in H.
  unfold create_axes, set_demographics, create_table, unpack4, bind, ret.
  rewrite H. simpl. repeat split.
Qed.

Lemma region_out_of_bounds_witness :
  1 < 0.8 + 0.3
  /\ create_axes report0 [0.8; 0.5; 0.3; 0.1] 1 page0
     = (Raise AssertionError, page0)
  /\ set_demographics report0 [0.8; 0.5; 0.3; 0.1] [("Name"%string, PStr "A")]
       page0 = (Raise AssertionError, page0)
  /\ create_table report0 [0.8; 0.5; 0.3; 0.1] [] true page0
     = (Raise AssertionError, page0).
Proof.
  split; [reflexivity|].
  apply (@region_out_of_bounds_draws_nothing report0 0.8 0.5 0.3 0.1 1%Z
           [("Name"%string, PStr "A")] [] true page0).
  reflexivity.
Defined.

(** ** The title *)

(** C5.  Without a subtitle [set_title] places exactly one text, the bold
    title at [x = margin[3]].  With a subtitle, when the renderer returns
    the measure of the title just placed, it places exactly two, and the
    subtitle starts at [margin[3] + measured width - 0.005 * len(title)];
    when the renderer raises, the call raises the same with the title
    alone on the surface. *)
Theorem set_title_places_title_then_subtitle :
  forall (bbox_width : world -> rhreports -> artist -> result Q)
         (self : rhreports) (ypos : Q) (title sub : string) (w : world)
         (ml : Q),
    alive self w ->
    nth_error (margin self) 3 = Some ml ->
    let titleax := Text ml ypos (PStr title) (kw bold (Points 24) None) in
    (fst (set_title bbox_width self ypos title None w) = Ok tt
     /\ drawn self (snd (set_title bbox_width self ypos title None w))
        = drawn self w ++ [titleax])
    /\ (forall measured : Q,
          bbox_width (paint self [titleax] w) self titleax = Ok measured ->
          exists xs : Q,
            fst (set_title bbox_width self ypos title (Some sub) w) = Ok tt
            /\ drawn self
                 (snd (set_title bbox_width self ypos title (Some sub) w))
               = drawn self w
                 ++ [titleax;
                     Text xs ypos (PStr sub) (kw None (Points 16) None)]
            /\ xs == ml + measured - 0.005 * qnat (len title))
    /\ (forall e : exn,
          bbox_width (paint self [titleax] w) self titleax = Raise e ->
          fst (set_title bbox_width self ypos title (Some sub) w) = Raise e
          /\ drawn self
               (snd (set_title bbox_width self ypos title (Some sub) w))
             = drawn self w ++ [titleax]).
Proof.
  intros bbox_width self ypos title sub w ml Hal Hm titleax.
  unfold set_title, index, bind, ret, ax_text. rewrite Hm. simpl.
  fold titleax. repeat apply conj.
  - reflexivity.
  - now apply drawn_paint.
  - intros measured Hbb. rewrite Hbb. eexists. split; [reflexivity|]. split.
    + cbn [snd]. rewrite paint_paint. rewrite drawn_paint by assumption.
      reflexivity.
    + ring.
  - intros e Hbb. rewrite Hbb. cbn [fst snd].
    split; [reflexivity|now apply drawn_paint].
Qed.

Lemma set_title_witness :
  let titleax := Text 0.075 0.9 (PStr "Report") (kw bold (Points 24) None) in
  alive report0 page0
  /\ nth_error (margin report0) 3 = Some 0.075
  /\ ruler (paint report0 [titleax] page0) report0 titleax
     = Ok (0.02 * qnat (len "Report"))
  /\ (fst (set_title ruler report0 0.9 "Report" None page0) = Ok tt
      /\ drawn report0 (snd (set_title ruler report0 0.9 "Report" None page0))
         = drawn report0 page0 ++ [titleax])
  /\ exists xs : Q,
       fst (set_title ruler report0 0.9 "Report" (Some "draft"%string) page0)
       = Ok tt
       /\ drawn report0
            (snd (set_title ruler report0 0.9 "Report" (Some "draft"%string)
                    page0))
          = drawn report0 page0
            ++ [titleax; Text xs 0.9 (PStr "draft") (kw None (Points 16) None)]
       /\ xs == 0.075 + 0.02 * qnat (len "Report")
                - 0.005 * qnat (len "Report").
Proof.
  pose proof (@set_title_places_title_then_subtitle ruler report0 0.9 "Report"
                "draft" page0 0.075 alive_page0 eq_refl) as H.
  refine (conj alive_page0 (conj eq_refl (conj eq_refl (conj (proj1 H) _)))).
  exact (proj1 (proj2 H) _ eq_refl).
Defined.

(** The renderer refuses the title ["$$"]: the call raises after the title
    has been drawn, and no subtitle is placed. *)
Example title_that_cannot_be_measured :
  set_title ruler report0 0.9 "$$" (Some "draft"%string) page0
  = (Raise ValueError,
     paint report0 [Text 0.075 0.9 (PStr "$$") (kw bold (Points 24) None)]
       page0).
Proof. reflexivity. Qed.

(** ** The demographics strip *)

Lemma fold_add_shift (a : list nat) (acc : nat) :
  fold_left Nat.add a acc = (acc + np_sum a)%nat.
Proof.
  unfold np_sum. revert acc.
  induction a as [|n a IH]; intros acc; simpl; [lia|].
  rewrite (IH (acc + n)%nat), (IH n). lia.
Qed.

Lemma np_sum_cons (n : nat) (a : list nat) :
  np_sum (n :: a) = (n + np_sum a)%nat.
Proof. unfold np_sum at 1. simpl. apply fold_add_shift. Qed.

(** Entry [i] of [np.cumsum] is the sum of the first [i + 1] entries. *)
Lemma nth_cumsum_from (a : list nat) (acc i : nat) :
  (i < List.length a)%nat ->
  nth i (cumsum_from acc a) O = (acc + np_sum (firstn (S i) a))%nat.
Proof.
  revert acc i.
  induction a as [|n a IH]; intros acc i Hi; simpl in Hi; [lia|].
  destruct i as [|i].
  - simpl. rewrite np_sum_cons. unfold np_sum. simpl. lia.
  - change (nth i (cumsum_from (acc + n) a) O
            = (acc + np_sum (n :: firstn (S i) a))%nat).
    rewrite IH by lia. rewrite np_sum_cons. lia.
Qed.

Lemma np_sum_ge (a : list nat) (n : nat) : In n a -> (n <= np_sum a)%nat.
Proof.
  induction a as [|m a IH]; intros H; [contradiction|].
  rewrite np_sum_cons. destruct H as [->|H]; [lia|].
  specialize (IH H). lia.
Qed.

(** Two fields of a dict cannot both have the empty label, so the lengths
    of a strip with several fields do not sum to zero: [colwidth] is a
    proper quotient wherever the loop reads it. *)
Lemma strlen_sum_pos (fields : list (string * pyval)) :
  NoDup (map fst fields) -> (2 <= List.length fields)%nat ->
  (0 < np_sum (map field_strlen fields))%nat.
Proof.
  intros ND Hlen.
  destruct fields as [|[k1 v1] [|[k2 v2] rest]]; simpl in Hlen; try lia.
  assert (Hk : (0 < len k1)%nat \/ (0 < len k2)%nat).
  { destruct k1 as [|c1 k1]; [|left; simpl; lia].
    destruct k2 as [|c2 k2]; [|right; simpl; lia].
    exfalso. simpl in ND. inversion ND as [|? ? Hn _]. apply Hn. now left. }
  destruct Hk as [H|H].
  - assert (field_strlen (k1, v1) <= np_sum (map field_strlen ((k1, v1) :: (k2, v2) :: rest)))%nat
      by (apply np_sum_ge; now left).
    unfold field_strlen in H0 at 1. simpl fst in H0. lia.
  - assert (field_strlen (k2, v2) <= np_sum (map field_strlen ((k1, v1) :: (k2, v2) :: rest)))%nat
      by (apply np_sum_ge; right; now left).
    unfold field_strlen in H0 at 1. simpl fst in H0. lia.
Qed.

Lemma qnat_nonzero (n : nat) : (0 < n)%nat -> ~ qnat n == 0.
Proof.
  intros H E. unfold qnat, Qeq in E. simpl in E. lia.
Qed.

Section Strip.

Variables (self : rhreports) (x y width : Q) (nfields : nat)
          (x0 colwidth : Q) (cumsum : list nat).

Lemma fields_loop_run (items : list (string * pyval)) :
  forall (i : nat) (w : world),
    fields_loop self x y width nfields x0 colwidth cumsum i items w
    = (Ok tt,
       paint self (fields_artists x y width nfields x0 colwidth cumsum i items) w).
Proof.
  induction items as [|[k v] rest IH]; intros i w; simpl.
  - unfold ret. now rewrite paint_nil.
  - unfold bind, field_artists.
    destruct (Nat.ltb 1 nfields && Nat.eqb i (nfields - 1)); simpl;
      unfold ax_text, bind; rewrite IH, !paint_paint; reflexivity.
Qed.

Lemma length_field_artists (i : nat) (f : string * pyval) :
  List.length (field_artists x y width nfields x0 colwidth cumsum i f) = 2%nat.
Proof.
  unfold field_artists.
  now destruct (Nat.ltb 1 nfields && Nat.eqb i (nfields - 1)).
Qed.

Lemma length_fields_artists (items : list (string * pyval)) (i : nat) :
  List.length (fields_artists x y width nfields x0 colwidth cumsum i items)
  = (2 * List.length items)%nat.
Proof.
  revert i. induction items as [|f rest IH]; intros i; simpl; [reflexivity|].
  rewrite length_app, length_field_artists, IH. lia.
Qed.

(** The texts of item [j] sit behind the [2 * j] texts of the items before. *)
Lemma fields_artists_split (items : list (string * pyval)) :
  forall (i j : nat) (f : string * pyval),
    nth_error items j = Some f ->
    exists pre post,
      fields_artists x y width nfields x0 colwidth cumsum i items
      = pre ++ field_artists x y width nfields x0 colwidth cumsum (i + j) f
            ++ post
      /\ List.length pre = (2 * j)%nat
      /\ List.length post = (2 * (List.length items - S j))%nat.
Proof.
  induction items as [|g rest IH]; intros i j f Hj; [now destruct j|].
  destruct j as [|j]; simpl in Hj.
  - inversion Hj; subst g. exists [], (fields_artists x y width nfields x0 colwidth cumsum (S i) rest).
    simpl. rewrite Nat.add_0_r, length_fields_artists. repeat split; lia.
  - destruct (IH (S i) j f Hj) as (pre & post & E & Lpre & Lpost).
    exists (field_artists x y width nfields x0 colwidth cumsum i g ++ pre), post.
    simpl. rewrite E, <- app_assoc, length_app, length_field_artists.
    replace (S i + j)%nat with (i + S j)%nat by lia.
    repeat split; try lia. 
Qed.

End Strip.

Lemma set_demographics_run (self : rhreports) (x y width height : Q)
  (fields : list (string * pyval)) (w : world) :
  x + width <= 1 ->
  set_demographics self [x; y; width; height] fields w
  = (Ok tt,
     paint self
       (strip_lines x y width height
        ++ fields_artists x y width (List.length fields) (x + 0.01)
             (col_width width fields)
             (np_cumsum (map field_strlen fields)) 0 fields) w).
Proof.
  intros H. apply Qle_bool_true in H.
  unfold set_demographics, unpack4, assert, bind, ret. rewrite H.
  unfold ret, ax_axhline. cbv beta iota zeta. rewrite paint_paint.
  destruct fields as [|f rest].
  - reflexivity.
  - replace (Nat.eqb (List.length (f :: rest)) 0) with false by reflexivity.
    rewrite fields_loop_run, paint_paint. reflexivity.
Qed.

(** The x-position the loop computes is the one the specification words. *)
Lemma loop_xpos_is_field_start (x width : Q) (fields : list (string * pyval))
  (i : nat) :
  (i < List.length fields)%nat ->
  (if Nat.eqb i 0 then x + 0.01
   else x + 0.01
        + (qnat (nth (i - 1) (np_cumsum (map field_strlen fields)) O)
           * col_width width fields))
  = field_start x width fields i.
Proof.
  intros Hi. destruct i as [|i]; [reflexivity|].
  simpl Nat.eqb. cbv iota. unfold field_start, np_cumsum.
  replace (S i - 1)%nat with i by lia.
  rewrite nth_cumsum_from by (rewrite length_map; lia).
  reflexivity.
Qed.


Lemma last_two_app (l : list artist) (a b : artist) :
  last_two (l ++ [a; b]) = [a; b].
Proof.
  unfold last_two. rewrite length_app. simpl List.length.
  replace (List.length l + 2 - 2)%nat with (List.length l + 0)%nat by lia.
  rewrite skipn_app, Nat.add_0_r, skipn_all.
  replace (List.length l - List.length l)%nat with O by lia. reflexivity.
Qed.




(** With several fields, the strip ends in the two right-aligned texts of
    the last field. *)
Lemma last_field_flush_right (self : rhreports) (x y width height : Q)
  (front : list (string * pyval)) (k : string) (v : pyval) (w : world) :
  alive self w ->
  x + width <= 1 ->
  front <> [] ->
  let r := set_demographics self [x; y; width; height] (front ++ [(k, v)]) w in
  fst r = Ok tt
  /\ last_two (drawn self (snd r))
     = [Text (x + width - 0.01) (y - 0.015) (PStr k) (kw None (Points 7) right_);
        Text (x + width - 0.01) (y - 0.03) v (kw None (Points 9) right_)].
Proof.
  intros Hal Hb Hne r. subst r.
  rewrite set_demographics_run by assumption. cbn [fst snd].
  split; [reflexivity|].
  rewrite drawn_paint by assumption.
  set (fields := front ++ [(k, v)]).
  assert (Hlen : List.length fields = S (List.length front))
    by (unfold fields; rewrite length_app; simpl; lia).
  assert (Hlast : nth_error fields (List.length front) = Some (k, v)).
  { unfold fields. rewrite nth_error_app2 by lia.
    now rewrite Nat.sub_diag. }
  destruct (@fields_artists_split x y width (List.length fields) (x + 0.01)
              (col_width width fields) (np_cumsum (map field_strlen fields))
              fields 0 (List.length front) (k, v) Hlast)
    as (pre & post & E & _ & Lpost).
  rewrite E. clear E.
  assert (post = []) as ->.
  { apply length_zero_iff_nil. rewrite Lpost, Hlen. lia. }
  unfold field_artists.
  replace (Nat.ltb 1 (List.length fields)
           && Nat.eqb (0 + List.length front) (List.length fields - 1))
    with true.
  2:{ symmetry. apply andb_true_iff. split.
      - apply Nat.ltb_lt. destruct front; [congruence|simpl in Hlen; simpl; lia].
      - apply Nat.eqb_eq. lia. }
  cbn [fst snd]. rewrite app_nil_r, !app_assoc. apply last_two_app.
Qed.

(** C3.  With two fields or more, the label and the value of the last field
    are drawn right-aligned at [x + width - 0.01], whatever the field holds
    and in whatever order the fields before it were inserted; a strip of one
    field draws it left-aligned at its computed start. *)
Theorem demographics_last_field_right_aligned :
  forall (self : rhreports) (x y width height : Q)
         (front front' : list (string * pyval)) (k : string) (v : pyval)
         (w : world),
    alive self w ->
    x + width <= 1 ->
    front <> [] ->
    Permutation front front' ->
    let flush :=
      [Text (x + width - 0.01) (y - 0.015) (PStr k) (kw None (Points 7) right_);
       Text (x + width - 0.01) (y - 0.03) v (kw None (Points 9) right_)] in
    let run fields := set_demographics self [x; y; width; height] fields w in
    (fst (run (front ++ [(k, v)])) = Ok tt
     /\ last_two (drawn self (snd (run (front ++ [(k, v)])))) = flush)
    /\ (fst (run (front' ++ [(k, v)])) = Ok tt
        /\ last_two (drawn self (snd (run (front' ++ [(k, v)])))) = flush)
    /\ (fst (run [(k, v)]) = Ok tt
        /\ drawn self (snd (run [(k, v)]))
           = drawn self w ++ strip_lines x y width height
             ++ [Text (field_start x width [(k, v)] 0) (y - 0.015) (PStr k)
                   (kw None (Points 7) left_);
                 Text (field_start x width [(k, v)] 0) (y - 0.03) v
                   (kw None (Points 9) left_)]).
Proof.
  intros self x y width height front front' k v w Hal Hb Hne Hperm flush run.
  assert (Hne' : front' <> []).
  { intros ->. apply Permutation_sym, Permutation_nil in Hperm. contradiction. }
  split; [|split].
  - now apply last_field_flush_right.
  - now apply last_field_flush_right.
  - subst run. cbv beta. rewrite set_demographics_run by assumption.
    cbn [fst snd]. split; [reflexivity|].
    rewrite drawn_paint by assumption. reflexivity.
Qed.

Lemma demographics_last_field_witness :
  alive report0 page0
  /\ 0.1 + 0.8 <= 1
  /\ firstn 2 patient <> []
  /\ Permutation (firstn 2 patient) (rev (firstn 2 patient))
  /\ last_two
       (drawn report0
          (snd (set_demographics report0 [0.1; 0.8; 0.8; 0.04]
                  (rev (firstn 2 patient) ++ [("Date"%string, PObj "2024-01-31")])
                  page0)))
     = [Text (0.1 + 0.8 - 0.01) (0.8 - 0.015) (PStr "Date")
          (kw None (Points 7) right_);
        Text (0.1 + 0.8 - 0.01) (0.8 - 0.03) (PObj "2024-01-31")
          (kw None (Points 9) right_)].
Proof.
  assert (Hb : 0.1 + 0.8 <= 1) by (vm_compute; discriminate).
  assert (Hne : firstn 2 patient <> []) by (simpl; discriminate).
  assert (Hp : Permutation (firstn 2 patient) (rev (firstn 2 patient)))
    by apply Permutation_rev.
  refine (conj alive_page0 (conj Hb (conj Hne (conj Hp _)))).
  exact (proj2 (proj1 (proj2 (@demographics_last_field_right_aligned report0
                                0.1 0.8 0.8 0.04 (firstn 2 patient)
                                (rev (firstn 2 patient)) "Date"
                                (PObj "2024-01-31") page0 alive_page0 Hb Hne
                                Hp)))).
Defined.

(** ** The table *)

Lemma last_index_cons {A} (a : A) (rest : list A) (start : nat)
  (bound : option nat) :
  last_index (S start) rest (Some start) = last_index start (a :: rest) bound.
Proof. destruct rest; simpl; f_equal; lia. Qed.

Section Grid.

Variables (self : rhreports) (x y colwidth : Q).

Lemma header_loop_run (rowheader : nat) (keys : list string) :
  forall (col : nat) (bound : option nat) (w : world),
    header_loop self x y colwidth rowheader col keys bound w
    = (Ok (last_index col keys bound),
       paint self (header_artists x y colwidth rowheader col keys) w).
Proof.
  induction keys as [|key rest IH]; intros col bound w; simpl.
  - unfold ret. now rewrite paint_nil.
  - unfold bind, ax_text.
    rewrite IH, paint_paint, (last_index_cons key rest col bound).
    reflexivity.
Qed.

Lemma rows_loop_run (rowheader : bool) (col : nat)
  (values : list (string * pyval)) :
  forall (row : nat) (bound : option nat) (w : world),
    rows_loop self x y colwidth rowheader col row values bound w
    = (Ok (last_index row values bound),
       paint self (rows_artists x y colwidth rowheader col row values) w).
Proof.
  induction values as [|[key value] rest IH]; intros row bound w; simpl.
  - unfold ret. now rewrite paint_nil.
  - unfold bind, cell_artists.
    destruct (Nat.eqb col 0 && rowheader); simpl;
      unfold ax_text, ax_axhline, bind, ret;
      rewrite IH, !paint_paint, (last_index_cons (key, value) rest row bound);
      reflexivity.
Qed.

Lemma body_loop_run (rowheader : bool) (items : table) :
  forall (col : nat) (bound : option nat * option nat) (w : world),
    body_loop self x y colwidth rowheader col items bound w
    = (Ok (last_index col items (fst bound), body_row items (snd bound)),
       paint self (body_artists x y colwidth rowheader col items) w).
Proof.
  induction items as [|[name values] rest IH]; intros col bound w; simpl.
  - unfold ret. rewrite paint_nil. now destruct bound.
  - unfold bind.
    rewrite rows_loop_run, IH, paint_paint. cbn [fst snd].
    rewrite (last_index_cons (name, values) rest col (fst bound)).
    reflexivity.
Qed.

End Grid.

Lemma last_index_map {A B} (f : A -> B) (start : nat) (l : list A)
  (bound : option nat) :
  last_index start (map f l) bound = last_index start l bound.
Proof. destruct l; simpl; [reflexivity|]. now rewrite length_map. Qed.

Lemma last_index_idem {A} (start : nat) (l : list A) (bound : option nat) :
  last_index start l (last_index start l bound) = last_index start l bound.
Proof. now destruct l. Qed.

(** [create_table] on a region within bounds and a non-zero column count:
    the grid, then the closing divider from the loop variables. *)
Lemma create_table_run (self : rhreports) (x y width height : Q)
  (data : table) (rowheader : bool) (w : world) :
  x + width <= 1 ->
  (List.length data + (if rowheader then 1 else 0) <> 0)%nat ->
  let colwidth :=
    width / qnat (List.length data + (if rowheader then 1 else 0)) in
  create_table self [x; y; width; height] data rowheader w
  = closing_divider self x y colwidth (last_index 0 data None)
      (body_row data None)
      (paint self (grid_artists x y width colwidth rowheader data) w).
Proof.
  intros Hb Hn colwidth. apply Qle_bool_true in Hb.
  unfold create_table, unpack4, assert, bind, ret. rewrite Hb.
  unfold ret, py_div. cbv beta iota zeta.
  replace (Qeq_bool (qnat (List.length data + (if rowheader then 1 else 0))) 0)
    with false.
  2:{ symmetry. apply not_true_iff_false. intros E. apply Qeq_bool_iff in E.
      revert E. apply qnat_nonzero. lia. }
  unfold ret, ax_axhline. cbv beta iota zeta.
  rewrite header_loop_run. cbv beta iota zeta.
  rewrite body_loop_run. cbv beta iota zeta. cbn [fst snd].
  rewrite last_index_map, last_index_idem, !paint_paint.
  unfold grid_artists. fold colwidth. reflexivity.
Qed.

Lemma closing_divider_paints (self : rhreports) (x y colwidth : Q)
  (col row : option nat) (w : world) :
  exists tail, snd (closing_divider self x y colwidth col row w) = paint self tail w.
Proof.
  unfold closing_divider, local, bind, ret, raise, ax_axhline.
  destruct col as [c|]; [destruct row as [r|]|]; simpl.
  - eexists. reflexivity.
  - exists []. now rewrite paint_nil.
  - exists []. now rewrite paint_nil.
Qed.

Lemma header_artists_In (x y colwidth : Q) (rowheader : nat)
  (keys : list string) :
  forall (col c : nat) (key : string),
    nth_error keys c = Some key ->
    In (Text (x + 0.015 + qnat (col + c + rowheader) * colwidth) (y - 0.03)
          (PStr key) (kw bold (Points 8) left_))
       (header_artists x y colwidth rowheader col keys).
Proof.
  induction keys as [|k rest IH]; intros col c key Hc; [now destruct c|].
  destruct c as [|c]; simpl in Hc.
  - inversion Hc; subst k. left.
    now replace (col + 0 + rowheader)%nat with (col + rowheader)%nat by lia.
  - right. replace (col + S c + rowheader)%nat
      with (S col + c + rowheader)%nat by lia.
    now apply IH.
Qed.

Lemma rows_artists_incl (x y colwidth : Q) (rowheader : bool) (col : nat)
  (values : list (string * pyval)) :
  forall (row r : nat) (item : string * pyval),
    nth_error values r = Some item ->
    incl (cell_artists x y colwidth rowheader col (row + r) item)
         (rows_artists x y colwidth rowheader col row values).
Proof.
  induction values as [|v rest IH]; intros row r item Hr; [now destruct r|].
  destruct r as [|r]; simpl in Hr.
  - inversion Hr; subst v. rewrite Nat.add_0_r. cbn [rows_artists].
    now apply incl_appl, incl_refl.
  - replace (row + S r)%nat with (S row + r)%nat by lia.
    cbn [rows_artists]. apply incl_appr. now apply IH.
Qed.

Lemma body_artists_incl (x y colwidth : Q) (rowheader : bool) (items : table) :
  forall (col c : nat) (name : string) (values : list (string * pyval)),
    nth_error items c = Some (name, values) ->
    incl (rows_artists x y colwidth rowheader (col + c) 0 values)
         (body_artists x y colwidth rowheader col items).
Proof.
  induction items as [|[n vs] rest IH]; intros col c name values Hc;
    [now destruct c|].
  destruct c as [|c]; simpl in Hc.
  - inversion Hc; subst n vs. rewrite Nat.add_0_r. cbn [body_artists].
    now apply incl_appl, incl_refl.
  - replace (col + S c)%nat with (S col + c)%nat by lia.
    cbn [body_artists]. apply incl_appr. now apply IH with (name := name).
Qed.

Lemma body_row_kept (items : table) (r : nat) :
  exists r', body_row items (Some r) = Some r'.
Proof.
  revert r. induction items as [|[n vs] rest IH]; intros r; simpl.
  - now exists r.
  - destruct vs as [|v vs]; simpl; apply IH.
Qed.

(** [row] is bound after the loops as soon as one column has a row. *)
Lemma body_row_bound (items : table) :
  forall (c : nat) (name : string) (values : list (string * pyval))
         (bound : option nat),
    nth_error items c = Some (name, values) -> values <> [] ->
    exists r, body_row items bound = Some r.
Proof.
  induction items as [|[n vs] rest IH]; intros c name values bound Hc Hne;
    [now destruct c|].
  destruct c as [|c]; simpl in Hc.
  - inversion Hc; subst n vs. simpl.
    destruct values as [|v values]; [congruence|]. simpl. apply body_row_kept.
  - simpl. now apply IH with (c := c) (name := name) (values := values).
Qed.

(** C4.  The columns of a table share the width of the region equally:
    [colwidth = width / (n + rh)] for [n] data columns and [rh = 1] with a
    row header, [0] without, whatever the cells hold.  The header of data
    column [c], and each of its cells, is drawn at
    [x + 0.015 + (c + rh) * colwidth]; the divider under each cell ends one
    [colwidth] after the column starts.  A call that reaches a cell returns
    normally. *)
Theorem table_columns_share_width_equally :
  forall (self : rhreports) (x y width height : Q) (data : table)
         (rowheader : bool) (w : world) (c : nat) (name : string)
         (values : list (string * pyval)),
    alive self w ->
    x + width <= 1 ->
    nth_error data c = Some (name, values) ->
    let rh := (if rowheader then 1 else 0)%nat in
    let colwidth := width / qnat (List.length data + rh) in
    let res := create_table self [x; y; width; height] data rowheader w in
    let xcol := x + 0.015 + qnat (c + rh) * colwidth in
    In (Text xcol (y - 0.03) (PStr name) (kw bold (Points 8) left_))
       (drawn self (snd res))
    /\ forall (r : nat) (key : string) (value : pyval),
         nth_error values r = Some (key, value) ->
         fst res = Ok tt
         /\ In (Text xcol (y - 0.06 - (qnat r * 0.025)) value
                  (kw None (Points 8) left_))
               (drawn self (snd res))
         /\ In (HLine (y - 0.069 - (qnat r * 0.025))
                  (x + 0.01 + qnat (c + rh) * colwidth)
                  (x + qnat (c + rh + 1) * colwidth) light_gray 1)
               (drawn self (snd res)).
Proof.
  intros self x y width height data rowheader w c name values Hal Hb Hc
         rh colwidth res xcol.
  assert (Hlen : (c < List.length data)%nat)
    by (apply nth_error_Some; congruence).
  assert (Hn : (List.length data + rh <> 0)%nat) by lia.
  subst res. rewrite (@create_table_run self x y width height data rowheader w Hb Hn).
  fold rh colwidth.
  set (grid := grid_artists x y width colwidth rowheader data).
  set (w1 := paint self grid w).
  destruct (closing_divider_paints self x y colwidth (last_index 0 data None)
              (body_row data None) w1) as (tail & Etail).
  rewrite Etail. subst w1. rewrite paint_paint, drawn_paint by assumption.
  assert (Hgrid : forall a, In a grid -> In a (drawn self w ++ grid ++ tail)).
  { intros a Ha. apply in_or_app. right. apply in_or_app. now left. }
  split.
  - apply Hgrid. unfold grid, grid_artists.
    apply in_or_app; right; apply in_or_app; left.
    apply (header_artists_In x y colwidth rh (map fst data) 0 c).
    rewrite nth_error_map, Hc. reflexivity.
  - intros r key value Hr.
    assert (Hcell : incl (cell_artists x y colwidth rowheader c r (key, value)) grid).
    { intros a Ha. unfold grid, grid_artists.
      apply in_or_app; right; apply in_or_app; right; apply in_or_app; right.
      apply (body_artists_incl x y colwidth rowheader data 0 c Hc).
      apply (rows_artists_incl x y colwidth rowheader c values 0 r Hr).
      exact Ha. }
    split; [|split].
    + destruct (body_row_bound data c None Hc) as (r' & Er').
      { intros ->. now destruct r. }
      rewrite Er'. destruct data as [|d data]; [now destruct c|]. reflexivity.
    + apply Hgrid, Hcell. unfold cell_artists. apply in_or_app. right.
      simpl. auto.
    + apply Hgrid, Hcell. unfold cell_artists. apply in_or_app. right.
      simpl. auto.
Qed.

Lemma table_columns_witness :
  alive report0 page0
  /\ 0.1 + 0.8 <= 1
  /\ nth_error labs 1
     = Some ("After"%string, [("Hb"%string, PInt 8); ("CRP"%string, PInt 3)])
  /\ In (Text (0.1 + 0.015 + qnat (1 + 1) * (0.8 / qnat (2 + 1))) (0.8 - 0.03)
           (PStr "After") (kw bold (Points 8) left_))
        (drawn report0
           (snd (create_table report0 [0.1; 0.8; 0.8; 0.3] labs true page0))).
Proof.
  assert (Hb : 0.1 + 0.8 <= 1) by (vm_compute; discriminate).
  refine (conj alive_page0 (conj Hb (conj eq_refl _))).
  exact (proj1 (@table_columns_share_width_equally report0 0.1 0.8 0.8 0.3
                  labs true page0 1 "After"
                  [("Hb"%string, PInt 8); ("CRP"%string, PInt 3)]
                  alive_page0 Hb eq_refl)).
Defined.

(** C10 (as the code has it).  On a table without columns and a region
    within bounds [create_table] never returns normally.  With the row
    header (the default) the column count is 1: the two header lines are
    drawn and stay on the surface, then the closing divider reads the loop
    variable [col], which no loop bound.  Without the row header the column
    count is 0: the division for the column width raises before anything
    is drawn. *)
Theorem empty_table_never_returns :
  forall (self : rhreports) (x y width height : Q) (rowheader : bool)
         (w : world),
    alive self w ->
    x + width <= 1 ->
    let res := create_table self [x; y; width; height] [] rowheader w in
    if rowheader then
      fst res = Raise (UnboundLocalError "col")
      /\ drawn self (snd res)
         = drawn self w
           ++ [HLine (y - 0.01) x (x + width) (Named "k") 1;
               HLine (y - 0.04) x (x + width) (Named "k") 1]
    else res = (Raise ZeroDivisionError, w).
Proof.
  intros self x y width height rowheader w Hal Hb res. subst res.
  destruct rowheader.
  - rewrite (@create_table_run self x y width height [] true w Hb)
      by (simpl; lia).
    unfold closing_divider, local, bind, raise. cbn [last_index fst snd].
    split; [reflexivity|]. now rewrite drawn_paint.
  - apply Qle_bool_true in Hb.
    unfold create_table, unpack4, assert, bind, ret. rewrite Hb. reflexivity.
Qed.

Lemma empty_table_witness :
  alive report0 page0
  /\ 0.1 + 0.8 <= 1
  /\ fst (create_table report0 [0.1; 0.8; 0.8; 0.3] [] true page0)
     = Raise (UnboundLocalError "col")
  /\ drawn report0 (snd (create_table report0 [0.1; 0.8; 0.8; 0.3] [] true page0))
     = drawn report0 page0
       ++ [HLine (0.8 - 0.01) 0.1 (0.1 + 0.8) (Named "k") 1;
           HLine (0.8 - 0.04) 0.1 (0.1 + 0.8) (Named "k") 1].
Proof.
  assert (Hb : 0.1 + 0.8 <= 1) by (vm_compute; discriminate).
  refine (conj alive_page0 (conj Hb _)).
  exact (@empty_table_never_returns report0 0.1 0.8 0.8 0.3 true page0
           alive_page0 Hb).
Defined.

(** C10 (as stated) fails without the row header: the empty table then
    raises the division error and leaves no line on the surface. *)
Lemma empty_table_without_rowheader_divides_by_zero :
  0.1 + 0.8 <= 1
  /\ create_table report0 [0.1; 0.8; 0.8; 0.3] [] false page0
     = (Raise ZeroDivisionError, page0)
  /\ fst (create_table report0 [0.1; 0.8; 0.8; 0.3] [] false page0)
     <> Raise (UnboundLocalError "col")
  /\ drawn report0 (snd (create_table report0 [0.1; 0.8; 0.8; 0.3] [] false page0))
     = drawn report0 page0.
Proof.
  split; [vm_compute; discriminate|].
  split; [reflexivity|]. split; [discriminate|reflexivity].
Qed.

(** ** The footer *)

Lemma bind_ok {A B} (m : M A) (k : A -> M B) (w : world) (b : B) :
  fst (bind m k w) = Ok b ->
  exists a, fst (m w) = Ok a
            /\ bind m k w = k a (snd (m w))
            /\ fst (k a (snd (m w))) = Ok b.
Proof.
  unfold bind. destruct (m w) as [[a|e] w1]; simpl; intros H.
  - exists a. auto.
  - discriminate.
Qed.

Lemma bind_run {A B} (m : M A) (k : A -> M B) (w : world) (a : A)
  (w' : world) :
  m w = (Ok a, w') -> bind m k w = k a w'.
Proof. intros E. unfold bind. now rewrite E. Qed.

Lemma bind_fail {A B} (m : M A) (k : A -> M B) (w : world) (e : exn)
  (w' : world) :
  m w = (Raise e, w') -> bind m k w = (Raise e, w').
Proof. intros E. unfold bind. now rewrite E. Qed.

Lemma update_last {A} (f : A -> A) (l : list A) (a : A) :
  update (List.length l) f (l ++ [a]) = l ++ [f a].
Proof. induction l as [|b l IH]; simpl; [reflexivity|]. now rewrite IH. Qed.

Lemma grows_refl (self : rhreports) (w : world) : alive self w -> grows self w w.
Proof. intros H. split; [assumption|apply incl_refl]. Qed.

Lemma grows_trans (self : rhreports) (w1 w2 w3 : world) :
  grows self w1 w2 -> grows self w2 w3 -> grows self w1 w3.
Proof.
  intros [_ H1] [A3 H2]. split; [assumption|].
  intros a Ha. now apply H2, H1.
Qed.

Lemma grows_paint (self : rhreports) (l : list artist) (w : world) :
  alive self w -> grows self w (paint self l w).
Proof.
  intros Hal. split; [now apply alive_paint|].
  destruct Hal as (g & a & Hg & Ha).
  unfold added_axes. rewrite surface_paint, Hg. simpl. apply incl_refl.
Qed.

Lemma grows_print (self : rhreports) (msg : string) (w : world) :
  alive self w -> grows self w (snd (print msg w)).
Proof. intros Hal. split; [exact Hal|apply incl_refl]. Qed.

(** Adding an axes and showing an image in it, with the frame off. *)
Lemma image_shown (self : rhreports) (r : list Q) (im : image) (w : world)
  (g : figure) :
  surface self w = Some g ->
  (ax <- fig_add_axes self r ;;
   ax_imshow self ax im "none" ;;
   ax_axis_off self ax) w
  = (Ok tt,
     on_fig (fig self)
       (fun g => {| figsize := figsize g; main := main g;
                    added := added g ++ [image_axes r im] |}) w).
Proof.
  intros Hg. unfold surface in Hg.
  unfold bind, fig_add_axes, ax_imshow, ax_axis_off. rewrite Hg.
  unfold on_fig. simpl. rewrite !update_update.
  f_equal. f_equal.
  generalize dependent (fig self). intros i. revert i.
  induction (figs w) as [|g0 fs IH]; intros [|i] Hi; simpl in *;
    try discriminate.
  - inversion Hi; subst g0. f_equal.
    unfold on_added, push_axes. simpl. f_equal.
    now rewrite !update_last.
  - f_equal. now apply IH.
Qed.

Lemma grows_image (self : rhreports) (r : list Q) (im : image) (w : world) :
  alive self w ->
  grows self w
    (on_fig (fig self)
       (fun g => {| figsize := figsize g; main := main g;
                    added := added g ++ [image_axes r im] |}) w)
  /\ In (image_axes r im)
        (added_axes self
           (on_fig (fig self)
              (fun g => {| figsize := figsize g; main := main g;
                           added := added g ++ [image_axes r im] |}) w)).
Proof.
  intros (g & a & Hg & Ha).
  unfold grows, alive, added_axes, surface, on_fig in *. simpl.
  rewrite nth_error_update, Nat.eqb_refl, Hg. simpl. repeat split.
  - eexists. eexists. split; [reflexivity|]. simpl. exact Ha.
  - now apply incl_appl, incl_refl.
  - apply in_or_app. right. now left.
Qed.

(** *** Every step of the footer keeps the object and its axes *)

Section Keeping.

Variable self : rhreports.

Lemma keeping_ret {A} (a : A) : keeping self (ret a).
Proof. intros w H. now apply grows_refl. Qed.

Lemma keeping_raise {A} (e : exn) : keeping self (@raise A e).
Proof. intros w H. now apply grows_refl. Qed.

Lemma keeping_bind {A B} (m : M A) (k : A -> M B) :
  keeping self m -> (forall a, keeping self (k a)) -> keeping self (bind m k).
Proof.
  intros Hm Hk w Hal. specialize (Hm w Hal). unfold bind.
  destruct (m w) as [[a|e] w1]; simpl in *; [|exact Hm].
  apply grows_trans with w1; [exact Hm|]. apply Hk. exact (proj1 Hm).
Qed.

Lemma keeping_index (l : list Q) (i : nat) : keeping self (index l i).
Proof.
  unfold index. destruct (nth_error l i);
    [apply keeping_ret|apply keeping_raise].
Qed.

Lemma keeping_getitem {A} (key : string) (v : option A) :
  keeping self (getitem key v).
Proof. destruct v; [apply keeping_ret|apply keeping_raise]. Qed.

Lemma keeping_py_div (a b : Q) : keeping self (py_div a b).
Proof.
  unfold py_div. destruct (Qeq_bool b 0);
    [apply keeping_raise|apply keeping_ret].
Qed.

Lemma keeping_print (msg : string) : keeping self (print msg).
Proof. intros w H. now apply grows_print. Qed.

Lemma keeping_pure {A} (r : result A) : keeping self (fun w => (r, w)).
Proof. intros w H. now apply grows_refl. Qed.

Lemma keeping_ax_text (x y : Q) (s : pyval) (k : text_kw) :
  keeping self (ax_text self x y s k).
Proof. intros w H. now apply grows_paint. Qed.

Lemma keeping_image (r : list Q) (im : image) :
  keeping self (ax <- fig_add_axes self r ;;
           ax_imshow self ax im "none" ;;
           ax_axis_off self ax).
Proof.
  intros w Hal. destruct (Hal) as (g & a & Hg & Ha).
  rewrite (image_shown self r im w Hg). simpl.
  now apply grows_image.
Qed.

End Keeping.

Create HintDb keeping.

#[local] Hint Resolve keeping_ret keeping_raise keeping_index keeping_getitem
  keeping_py_div keeping_print keeping_pure keeping_ax_text keeping_image
  : keeping.

Lemma footer_step_keeping (imread : option string -> result image)
  (rc_text_color : colour) (self : rhreports) (data : footer) (ypos : Q)
  (pos : zone) :
  keeping self (footer_step imread rc_text_color self data ypos pos).
Proof.
  unfold footer_step.
  destruct (lookup data (zone_name pos)) as [e|]; [|auto with keeping].
  apply keeping_bind; [auto with keeping|]. intros ty.
  destruct (String.eqb ty "text").
  - apply keeping_bind.
    + destruct pos; auto with keeping.
      apply keeping_bind; auto with keeping.
    + intros xpos. apply keeping_bind; auto with keeping.
  - destruct (String.eqb ty "img"); [|auto with keeping].
    apply keeping_bind.
    { destruct (e_src e); auto with keeping.
      apply keeping_bind; auto with keeping. }
    intros pngfile. apply keeping_bind; [auto with keeping|]. intros im.
    apply keeping_bind.
    { destruct (e_height e); auto with keeping.
      apply keeping_bind; auto with keeping. }
    intros height. apply keeping_bind; [auto with keeping|]. intros width.
    apply keeping_bind.
    { destruct pos; auto with keeping.
      apply keeping_bind; auto with keeping. }
    intros xpos. auto with keeping.
Qed.

Section Footer.

Variable imread : option string -> result image.
Variable rc_text_color : colour.
Variables (self : rhreports) (data : footer).

(** The image branch of one step, when it goes through. *)
Lemma footer_step_image (ypos : Q) (pos : zone) (e : entry) (path : string)
  (im : image) (mt : Q) (w : world) :
  alive self w ->
  nth_error (margin self) 0 = Some mt ->
  lookup data (zone_name pos) = Some e ->
  e_type e = Some "img"%string ->
  e_src e = Some path ->
  imread (Some path) = Ok im ->
  fst (footer_step imread rc_text_color self data ypos pos w) = Ok tt ->
  let height := default (e_height e) ((1 - mt - ypos) / 15) in
  exists xpos width,
    In (image_axes [xpos; ypos - 0.008; width; height] im)
       (added_axes self
          (snd (footer_step imread rc_text_color self data ypos pos w)))
    /\ width == height * (qnat (shape1 im) / qnat (shape0 im)).
Proof.
  intros Hal Hmt Hl Hty Hs Him. unfold footer_step.
  rewrite Hl. unfold getitem. rewrite Hty.
  cbn [bind ret String.eqb Ascii.eqb Bool.eqb].
  rewrite Hs. cbn [bind ret]. rewrite Him.
  assert (Hh : (match e_height e with
                | Some h => ret h
                | None => m <- index (margin self) 0 ;; ret ((1 - m - ypos) / 15)
                end) w
               = (Ok (default (e_height e) ((1 - mt - ypos) / 15)), w)).
  { destruct (e_height e); [reflexivity|].
    unfold index. rewrite Hmt. reflexivity. }
  rewrite (@bind_run _ _ _ _ _ _ _ Hh). clear Hh.
  set (ht := default (e_height e) ((1 - mt - ypos) / 15)).
  destruct (Qeq_bool (qnat (shape0 im)) 0) eqn:E0.
  { rewrite (@bind_fail _ _ _ _ w ZeroDivisionError w)
      by (unfold py_div; now rewrite E0).
    discriminate. }
  rewrite (@bind_run _ _ _ _ w (qnat (shape1 im) * ht / qnat (shape0 im)) w)
    by (unfold py_div; now rewrite E0).
  assert (Hw : qnat (shape1 im) * ht / qnat (shape0 im)
               == ht * (qnat (shape1 im) / qnat (shape0 im))).
  { field. intros E. apply Qeq_bool_iff in E. congruence. }
  set (wd := qnat (shape1 im) * ht / qnat (shape0 im)) in *.
  destruct (Hal) as (g & a & Hg & Ha).
  assert (Hx : forall xpos,
             In (image_axes [xpos; ypos - 0.008; wd; ht] im)
                (added_axes self
                   (snd ((ax <- fig_add_axes self [xpos; ypos - 0.008; wd; ht] ;;
                          ax_imshow self ax im "none" ;;
                          ax_axis_off self ax) w)))).
  { intros xpos. rewrite (image_shown self _ im w Hg). simpl.
    now apply grows_image. }
  destruct pos.
  - destruct (nth_error (margin self) 3) as [ml|] eqn:E3.
    + rewrite (@bind_run _ _ _ _ w ml w) by (unfold index; now rewrite E3).
      intros _. exists ml, wd. split; [apply Hx|exact Hw].
    + rewrite (@bind_fail _ _ _ _ w IndexError w)
        by (unfold index; now rewrite E3).
      discriminate.
  - rewrite (@bind_run _ _ _ _ w (0.5 - wd / 2) w) by reflexivity.
    intros _. exists (0.5 - wd / 2), wd. split; [apply Hx|exact Hw].
  - destruct (nth_error (margin self) 1) as [mr|] eqn:E1.
    + rewrite (@bind_run _ _ _ _ w (1 - mr - wd) w)
        by (unfold index, bind; now rewrite E1).
      intros _. exists (1 - mr - wd), wd. split; [apply Hx|exact Hw].
    + rewrite (@bind_fail _ _ _ _ w IndexError w)
        by (unfold index, bind; now rewrite E1).
      discriminate.
Qed.

End Footer.

(** C6.  For an image entry of a footer that [set_footer] renders, the axes
    allocated for the image has the requested height, or
    [(1 - margin[0] - ypos) / 15] when the entry gives none, and the width
    [height * (shape[1] / shape[0])]: the height scaled by the aspect ratio
    of the image in pixels. *)
Theorem footer_image_keeps_aspect_ratio :
  forall (imread : option string -> result image) (rc_text_color : colour)
         (self : rhreports) (data : footer) (ypos : option Q) (w : world)
         (pos : zone) (e : entry) (path : string) (im : image) (mt mb : Q),
    alive self w ->
    nth_error (margin self) 0 = Some mt ->
    nth_error (margin self) 2 = Some mb ->
    lookup data (zone_name pos) = Some e ->
    e_type e = Some "img"%string ->
    e_src e = Some path ->
    imread (Some path) = Ok im ->
    fst (set_footer imread rc_text_color self data ypos w) = Ok tt ->
    let y := default ypos mb in
    let height := default (e_height e) ((1 - mt - y) / 15) in
    exists xpos width,
      In (image_axes [xpos; y - 0.008; width; height] im)
         (added_axes self
            (snd (set_footer imread rc_text_color self data ypos w)))
      /\ width == height * (qnat (shape1 im) / qnat (shape0 im)).
Proof.
  intros imread rc self data ypos w pos e path im mt mb
         Hal Hmt Hmb Hl Hty Hs Him.
  unfold set_footer.
  assert (Hy : (match ypos with
                | None => index (margin self) 2
                | Some y => ret y
                end) w = (Ok (default ypos mb), w)).
  { destruct ypos; [reflexivity|]. unfold index. now rewrite Hmb. }
  rewrite (@bind_run _ _ _ _ _ _ _ Hy). clear Hy.
  set (y := default ypos mb). intros Hok. cbv zeta.
  set (step := footer_step imread rc self data y) in *.
  apply bind_ok in Hok as ([] & H1 & E1 & Hok). rewrite E1. clear E1.
  apply bind_ok in Hok as ([] & H2 & E2 & H3). rewrite E2. clear E2.
  set (w1 := snd (step left w)) in *.
  set (w2 := snd (step center w1)) in *.
  assert (K1 : grows self w w1) by now apply footer_step_keeping.
  assert (K2 : grows self w1 w2) by (apply footer_step_keeping; apply K1).
  assert (K3 : grows self w2 (snd (step right w2)))
    by (apply footer_step_keeping; apply K2).
  destruct pos.
  - destruct (@footer_step_image imread rc self data y left e path im mt w
                Hal Hmt Hl Hty Hs Him H1) as (xpos & width & Hin & Hw).
    exists xpos, width. split; [|exact Hw].
    apply (proj2 K3), (proj2 K2). exact Hin.
  - destruct (@footer_step_image imread rc self data y center e path im mt w1
                (proj1 K1) Hmt Hl Hty Hs Him H2) as (xpos & width & Hin & Hw).
    exists xpos, width. split; [|exact Hw].
    apply (proj2 K3). exact Hin.
  - destruct (@footer_step_image imread rc self data y right e path im mt w2
                (proj1 K2) Hmt Hl Hty Hs Him H3) as (xpos & width & Hin & Hw).
    exists xpos, width. split; [|exact Hw]. exact Hin.
Qed.

Lemma footer_image_witness :
  alive report0 page0
  /\ fst (set_footer imread_logo black report0 letterhead None page0) = Ok tt
  /\ exists xpos width,
       In (image_axes [xpos; 0.05 - 0.008; width; 0.05] logo)
          (added_axes report0
             (snd (set_footer imread_logo black report0 letterhead None page0)))
       /\ width == 0.05 * (qnat 120 / qnat 40).
Proof.
  refine (conj alive_page0 (conj eq_refl _)).
  exact (@footer_image_keeps_aspect_ratio imread_logo black report0 letterhead
           None page0 right (img_entry (Some "logo.png"%string) (Some 0.05))
           "logo.png" logo 0.075 0.05 alive_page0 eq_refl eq_refl eq_refl
           eq_refl eq_refl eq_refl eq_refl).
Defined.

Lemma bind_ext {A B} (m m' : M A) (k k' : A -> M B) (w : world) :
  (forall w, m w = m' w) -> (forall a w, k a w = k' a w) ->
  bind m k w = bind m' k' w.
Proof.
  intros Hm Hk. unfold bind. rewrite Hm.
  destruct (m' w) as [[a|e] w1]; [apply Hk|reflexivity].
Qed.

Lemma footer_step_absent (imread : option string -> result image)
  (rc_text_color : colour) (self : rhreports) (data : footer) (ypos : Q)
  (pos : zone) :
  lookup data (zone_name pos) = None ->
  footer_step imread rc_text_color self data ypos pos = ret tt.
Proof. intros H. unfold footer_step. now rewrite H. Qed.

(** A footer with a single entry runs the one step of its position. *)
Lemma set_footer_single (imread : option string -> result image)
  (rc_text_color : colour) (self : rhreports) (pos : zone) (e : entry)
  (ypos : Q) (w : world) :
  set_footer imread rc_text_color self [(zone_name pos, e)] (Some ypos) w
  = footer_step imread rc_text_color self [(zone_name pos, e)] ypos pos w.
Proof.
  unfold set_footer. rewrite (@bind_run _ _ _ _ w ypos w) by reflexivity.
  destruct pos.
  - rewrite (@footer_step_absent imread rc_text_color self _ ypos center)
      by reflexivity.
    rewrite (@footer_step_absent imread rc_text_color self _ ypos right)
      by reflexivity.
    unfold bind, ret.
    now destruct (footer_step imread rc_text_color self [(zone_name left, e)]
                    ypos left w) as [[[]|ex] w1].
  - rewrite (@footer_step_absent imread rc_text_color self _ ypos left)
      by reflexivity.
    rewrite (@footer_step_absent imread rc_text_color self _ ypos right)
      by reflexivity.
    unfold bind, ret.
    now destruct (footer_step imread rc_text_color self [(zone_name center, e)]
                    ypos center w) as [[[]|ex] w1].
  - rewrite (@footer_step_absent imread rc_text_color self _ ypos left)
      by reflexivity.
    rewrite (@footer_step_absent imread rc_text_color self _ ypos center)
      by reflexivity.
    reflexivity.
Qed.

Lemma lookup_single (pos : zone) (e : entry) :
  lookup [(zone_name pos, e)] (zone_name pos) = Some e.
Proof. simpl. now rewrite String.eqb_refl. Qed.

(** C7 (what the code does).  An image entry without ['src'] makes
    [set_footer] print ["Error: src not found"] and go on: it hands [None]
    to [plt.imread].  The method raises nothing of its own.  If the library
    raises on [None], that exception, whatever its message, is the outcome;
    if the library returns an image, the footer is drawn with it. *)
Theorem missing_src_is_printed_and_passed_on :
  forall (imread : option string -> result image) (rc_text_color : colour)
         (self : rhreports) (pos : zone) (e : entry) (ypos : Q) (w : world),
    e_type e = Some "img"%string ->
    e_src e = None ->
    let run :=
      set_footer imread rc_text_color self [(zone_name pos, e)] (Some ypos) w in
    (forall ex, imread None = Raise ex ->
                run = (Raise ex, snd (print "Error: src not found" w)))
    /\ (forall im mt mr ml,
          imread None = Ok im ->
          shape0 im <> O ->
          nth_error (margin self) 0 = Some mt ->
          nth_error (margin self) 1 = Some mr ->
          nth_error (margin self) 3 = Some ml ->
          fst run = Ok tt
          /\ stdout (snd run) = stdout w ++ ["Error: src not found"%string]).
Proof.
  intros imread rc self pos e ypos w Hty Hs run. subst run.
  rewrite set_footer_single. unfold footer_step.
  rewrite lookup_single. unfold getitem. rewrite Hty.
  cbn [bind ret String.eqb Ascii.eqb Bool.eqb]. rewrite Hs.
  rewrite (@bind_run _ _ _ _ w None (snd (print "Error: src not found" w)))
    by reflexivity.
  set (w1 := snd (print "Error: src not found" w)).
  split.
  - intros ex Hex.
    now rewrite (@bind_fail _ _ _ _ w1 ex w1) by now rewrite Hex.
  - intros im mt mr ml Him H0 Hmt Hmr Hml.
    rewrite (@bind_run _ _ _ _ w1 im w1) by now rewrite Him.
    rewrite (@bind_run _ _ _ _ w1 (default (e_height e) ((1 - mt - ypos) / 15)) w1).
    2:{ destruct (e_height e); [reflexivity|].
        unfold index, bind. now rewrite Hmt. }
    set (ht := default (e_height e) ((1 - mt - ypos) / 15)).
    assert (E0 : Qeq_bool (qnat (shape0 im)) 0 = false).
    { apply not_true_iff_false. intros E. apply Qeq_bool_iff in E.
      revert E. apply qnat_nonzero. lia. }
    rewrite (@bind_run _ _ _ _ w1 (qnat (shape1 im) * ht / qnat (shape0 im)) w1)
      by (unfold py_div; now rewrite E0).
    set (wd := qnat (shape1 im) * ht / qnat (shape0 im)).
    destruct pos.
    + rewrite (@bind_run _ _ _ _ w1 ml w1) by (unfold index; now rewrite Hml).
      split; reflexivity.
    + rewrite (@bind_run _ _ _ _ w1 (0.5 - wd / 2) w1) by reflexivity.
      split; reflexivity.
    + rewrite (@bind_run _ _ _ _ w1 (1 - mr - wd) w1)
        by (unfold index, bind; now rewrite Hmr).
      split; reflexivity.
Qed.

Lemma missing_src_witness :
  e_type (img_entry None None) = Some "img"%string
  /\ e_src (img_entry None None) = None
  /\ imread_logo None
     = Raise (LibraryError "'NoneType' object has no attribute 'read'")
  /\ set_footer imread_logo black report0
       [(zone_name left, img_entry None None)] (Some 0.05) page0
     = (Raise (LibraryError "'NoneType' object has no attribute 'read'"),
        snd (print "Error: src not found" page0)).
Proof.
  refine (conj eq_refl (conj eq_refl (conj eq_refl _))).
  exact (proj1 (@missing_src_is_printed_and_passed_on imread_logo black report0
                  left (img_entry None None) 0.05 page0 eq_refl eq_refl)
           _ eq_refl).
Defined.

(** *** Entries of an unknown type *)

Lemma lookup_remove_same (key : string) (data : footer) :
  lookup (remove_key key data) key = None.
Proof.
  induction data as [|[p e] rest IH]; simpl; [reflexivity|].
  destruct (String.eqb p key) eqn:E; simpl; [exact IH|].
  now rewrite E.
Qed.

Lemma lookup_remove_other (key other : string) (data : footer) :
  other <> key -> lookup (remove_key key data) other = lookup data other.
Proof.
  intros N. induction data as [|[p e] rest IH]; simpl; [reflexivity|].
  destruct (String.eqb p key) eqn:E; simpl.
  - apply String.eqb_eq in E. subst p.
    destruct (String.eqb key other) eqn:E'; [|exact IH].
    apply String.eqb_eq in E'. congruence.
  - now rewrite IH.
Qed.

Lemma zone_name_inj (a b : zone) : zone_name a = zone_name b -> a = b.
Proof. destruct a, b; simpl; intros H; try reflexivity; discriminate. Qed.

(** C8 (as the code has it).  An entry whose ['type'] is neither ['text']
    nor ['img'] is skipped without an error: [set_footer] does exactly what
    it does on the footer without that entry. *)
Theorem unknown_footer_type_is_skipped :
  forall (imread : option string -> result image) (rc_text_color : colour)
         (self : rhreports) (data : footer) (ypos : option Q) (w : world)
         (pos : zone) (e : entry) (ty : string),
    lookup data (zone_name pos) = Some e ->
    e_type e = Some ty ->
    ty <> "text"%string ->
    ty <> "img"%string ->
    set_footer imread rc_text_color self data ypos w
    = set_footer imread rc_text_color self
        (remove_key (zone_name pos) data) ypos w.
Proof.
  intros imread rc self data ypos w pos e ty Hl Hty Ntext Nimg.
  assert (Hstep : forall y z w0,
             footer_step imread rc self data y z w0
             = footer_step imread rc self (remove_key (zone_name pos) data)
                 y z w0).
  { intros y z w0. unfold footer_step.
    destruct (zone_eq_dec z pos) as [->|N].
    - rewrite Hl, lookup_remove_same. unfold getitem. rewrite Hty.
      apply String.eqb_neq in Ntext, Nimg.
      cbn [bind ret]. now rewrite Ntext, Nimg.
    - rewrite lookup_remove_other; [reflexivity|].
      intros E. apply N. now apply zone_name_inj. }
  unfold set_footer. apply bind_ext; [reflexivity|]. intros y w0.
  apply bind_ext; [apply Hstep|]. intros _ w1.
  apply bind_ext; [apply Hstep|]. intros _ w2. apply Hstep.
Qed.

Lemma unknown_footer_type_witness :
  lookup odd_footer (zone_name center) = Some (typed_entry "table")
  /\ e_type (typed_entry "table") = Some "table"%string
  /\ "table"%string <> "text"%string
  /\ "table"%string <> "img"%string
  /\ set_footer imread_logo black report0 odd_footer None page0
     = set_footer imread_logo black report0
         (remove_key (zone_name center) odd_footer) None page0.
Proof.
  assert (N1 : "table"%string <> "text"%string) by discriminate.
  assert (N2 : "table"%string <> "img"%string) by discriminate.
  refine (conj eq_refl (conj eq_refl (conj N1 (conj N2 _)))).
  exact (@unknown_footer_type_is_skipped imread_logo black report0 odd_footer
           None page0 center (typed_entry "table") "table" eq_refl eq_refl
           N1 N2).
Defined.

(** C8 (as stated) fails: a footer whose only entry has the type ['table']
    is accepted, nothing is raised and nothing is drawn. *)
Lemma unknown_footer_type_raises_nothing :
  lookup [("center"%string, typed_entry "table")] (zone_name center)
  = Some (typed_entry "table")
  /\ e_type (typed_entry "table") = Some "table"%string
  /\ set_footer imread_logo black report0
       [("center"%string, typed_entry "table")] None page0
     = (Ok tt, page0)
  /\ forall ex,
       fst (set_footer imread_logo black report0
              [("center"%string, typed_entry "table")] None page0)
       <> Raise ex.
Proof.
  split; [reflexivity|]. split; [reflexivity|]. split; [reflexivity|].
  intros ex. discriminate.
Qed.

(** ** Two reports side by side *)

Create HintDb leaving.

Lemma leaving_ret (a : rhreports) {A} (x : A) : leaving a (ret x).
Proof. intros w. reflexivity. Qed.

Lemma leaving_raise (a : rhreports) {A} (e : exn) : leaving a (@raise A e).
Proof. intros w. reflexivity. Qed.

Lemma leaving_read (a : rhreports) {A} (f : world -> result A) :
  leaving a (fun w => (f w, w)).
Proof. intros w. reflexivity. Qed.

Lemma leaving_bind (a : rhreports) {A B} (m : M A) (k : A -> M B) :
  leaving a m -> (forall x, leaving a (k x)) -> leaving a (bind m k).
Proof.
  intros Hm Hk w. specialize (Hm w). unfold bind.
  destruct (m w) as [[x|e] w1]; simpl in *; [|exact Hm].
  now rewrite Hk.
Qed.

Lemma leaving_index (a : rhreports) (l : list Q) (i : nat) :
  leaving a (index l i).
Proof.
  unfold index. destruct (nth_error l i);
    [apply leaving_ret|apply leaving_raise].
Qed.

Lemma leaving_getitem (a : rhreports) {A} (key : string) (v : option A) :
  leaving a (getitem key v).
Proof. destruct v; [apply leaving_ret|apply leaving_raise]. Qed.

Lemma leaving_local (a : rhreports) (name : string) (v : option nat) :
  leaving a (local name v).
Proof. destruct v; [apply leaving_ret|apply leaving_raise]. Qed.

Lemma leaving_assert (a : rhreports) (c : bool) : leaving a (assert c).
Proof. destruct c; [apply leaving_ret|apply leaving_raise]. Qed.

Lemma leaving_unpack4 (a : rhreports) (pos : list Q) : leaving a (unpack4 pos).
Proof.
  destruct pos as [|x [|y [|wd [|ht [|extra rest]]]]];
    try apply leaving_raise. apply leaving_ret.
Qed.

Lemma leaving_py_div (a : rhreports) (p q : Q) : leaving a (py_div p q).
Proof.
  unfold py_div. destruct (Qeq_bool q 0);
    [apply leaving_raise|apply leaving_ret].
Qed.

Lemma leaving_print (a : rhreports) (msg : string) : leaving a (print msg).
Proof. intros w. reflexivity. Qed.

#[local] Hint Resolve leaving_ret leaving_raise leaving_read leaving_index
  leaving_getitem leaving_local leaving_assert leaving_unpack4 leaving_py_div
  leaving_print : leaving.

Ltac leave :=
  repeat match goal with
         | |- leaving _ (bind _ _) => apply leaving_bind; [|intro]
         | |- leaving _ (match ?x with _ => _ end) => destruct x
         | |- _ => solve [auto with leaving]
         end.

Section Apart.

Variables a b : rhreports.
Hypothesis apart : fig a <> fig b.

Lemma surface_on_fig_other (f : figure -> figure) (w : world) :
  surface a (on_fig (fig b) f w) = surface a w.
Proof.
  unfold surface, on_fig; simpl. rewrite nth_error_update.
  destruct (Nat.eqb_spec (fig b) (fig a)) as [E|_]; [congruence|reflexivity].
Qed.

Lemma leaving_ax_text (x y : Q) (s : pyval) (k : text_kw) :
  leaving a (ax_text b x y s k).
Proof. intros w. apply surface_on_fig_other. Qed.

Lemma leaving_ax_axhline (y xmin xmax : Q) (c : colour) (lw : Q) :
  leaving a (ax_axhline b y xmin xmax c lw).
Proof. intros w. apply surface_on_fig_other. Qed.

Lemma leaving_fig_add_axes (r : list Q) : leaving a (fig_add_axes b r).
Proof. intros w. apply surface_on_fig_other. Qed.

Lemma leaving_ax_imshow (h : nat) (im : image) (interpolation : string) :
  leaving a (ax_imshow b h im interpolation).
Proof. intros w. apply surface_on_fig_other. Qed.

Lemma leaving_ax_axis_off (h : nat) : leaving a (ax_axis_off b h).
Proof. intros w. apply surface_on_fig_other. Qed.

Hint Resolve leaving_ax_text leaving_ax_axhline leaving_fig_add_axes
  leaving_ax_imshow leaving_ax_axis_off : leaving.

Lemma leaving_axes_loop (x y colwidth height : Q) (range : list nat) :
  forall axs, leaving a (axes_loop b x y colwidth height range axs).
Proof. induction range as [|i rest IH]; intros axs; simpl; leave. Qed.

Lemma leaving_fields_loop (x y width : Q) (nfields : nat) (x0 colwidth : Q)
  (cumsum : list nat) (items : list (string * pyval)) :
  forall i,
    leaving a (fields_loop b x y width nfields x0 colwidth cumsum i items).
Proof.
  induction items as [|[k v] rest IH]; intros i; simpl; leave.
Qed.

Lemma leaving_header_loop (x y colwidth : Q) (rowheader : nat)
  (keys : list string) :
  forall col bound,
    leaving a (header_loop b x y colwidth rowheader col keys bound).
Proof.
  induction keys as [|key rest IH]; intros col bound; simpl; leave.
Qed.

Lemma leaving_rows_loop (x y colwidth : Q) (rowheader : bool) (col : nat)
  (values : list (string * pyval)) :
  forall row bound,
    leaving a (rows_loop b x y colwidth rowheader col row values bound).
Proof.
  induction values as [|[key value] rest IH]; intros row bound; simpl; leave.
Qed.

Lemma leaving_body_loop (x y colwidth : Q) (rowheader : bool) (items : table) :
  forall col bound,
    leaving a (body_loop b x y colwidth rowheader col items bound).
Proof.
  induction items as [|[name values] rest IH]; intros col bound; simpl.
  - leave.
  - apply leaving_bind; [apply leaving_rows_loop|]. intros row. apply IH.
Qed.

Hint Resolve leaving_axes_loop leaving_fields_loop leaving_header_loop
  leaving_body_loop : leaving.

(** No drawing method called on [b] changes the surface of [a]. *)
Lemma drawing_leaves_other_reports
  (bbox_width : world -> rhreports -> artist -> result Q)
  (imread : option string -> result image) (rc_text_color : colour) :
  (forall ypos title subtitle,
      leaving a (set_title bbox_width b ypos title subtitle))
  /\ (forall pos ncols, leaving a (create_axes b pos ncols))
  /\ (forall xpos ypos txt kwargs, leaving a (add_text b xpos ypos txt kwargs))
  /\ (forall pos fields, leaving a (set_demographics b pos fields))
  /\ (forall pos data rowheader, leaving a (create_table b pos data rowheader))
  /\ (forall data ypos, leaving a (set_footer imread rc_text_color b data ypos)).
Proof.
  repeat split; intros.
  - unfold set_title. leave.
  - unfold create_axes. leave.
  - unfold add_text. leave.
  - unfold set_demographics. leave.
  - unfold create_table. leave.
  - unfold set_footer, footer_step. leave.
Qed.

End Apart.

(** ** Saving *)

(** [save] writes the figure pyplot holds as current, whichever instance
    it is called on; [self] only decides which figure is closed. *)
Lemma save_writes_current_figure (self : rhreports) (filename : string)
  (w : world) (id : nat) (g : figure) :
  last_open (open_figs w) = Some id ->
  nth_error (figs w) id = Some g ->
  save self filename w
  = (Ok filename,
     {| figs := figs w;
        open_figs := filter (fun j => negb (Nat.eqb j (fig self))) (open_figs w);
        stdout := stdout w;
        disk := (filename, g) :: disk w |}).
Proof.
  intros Hlast Hg. unfold save, plt_savefig, plt_gcf, plt_close, bind, ret.
  rewrite Hlast, Hg. reflexivity.
Qed.

(** C9 (where the code departs).  Reports [a] and [b] are created in this
    order, a title is drawn on [b], and [a] is saved.  The drawing on [b]
    left the surface of [a] empty, but the file written for [a] holds the
    surface of [b], title included, and it is [a]'s figure that is closed:
    [save] renders pyplot's current figure, not [self.fig]. *)
Theorem save_exports_the_latest_report :
  fst (two_reports boot) = Ok (report0, report1, "a.pdf"%string)
  /\ drawn report0 after_two_reports = []
  /\ drawn report1 after_two_reports
     = [Text 0.075 0.9 (PStr "B") (kw bold (Points 24) None)]
  /\ read_file (disk after_two_reports) "a.pdf" = surface report1 after_two_reports
  /\ read_file (disk after_two_reports) "a.pdf" <> surface report0 after_two_reports
  /\ open_figs after_two_reports = [fig report1].
Proof.
  repeat split; try reflexivity.
  vm_compute. discriminate.
Qed.

(** * Further properties of the class *)

(** ** What every drawing method keeps *)

Create HintDb appending.

Lemma appending_unchanged (self : rhreports) {A} (m : M A) :
  (forall w, snd (m w) = w) -> appending self m.
Proof.
  intros H w Hal. rewrite H. split; [assumption|].
  exists []. now rewrite app_nil_r.
Qed.

Lemma appending_ret (self : rhreports) {A} (x : A) : appending self (ret x).
Proof. now apply appending_unchanged. Qed.

Lemma appending_raise (self : rhreports) {A} (e : exn) :
  appending self (@raise A e).
Proof. now apply appending_unchanged. Qed.

Lemma appending_read (self : rhreports) {A} (f : world -> result A) :
  appending self (fun w => (f w, w)).
Proof. now apply appending_unchanged. Qed.

Lemma appending_bind (self : rhreports) {A B} (m : M A) (k : A -> M B) :
  appending self m -> (forall x, appending self (k x)) ->
  appending self (bind m k).
Proof.
  intros Hm Hk w Hal. destruct (Hm w Hal) as (Hal1 & l1 & E1). unfold bind.
  destruct (m w) as [[x|e] w1]; simpl in *; [|eauto].
  destruct (Hk x w1 Hal1) as (Hal2 & l2 & E2). split; [assumption|].
  exists (l1 ++ l2). now rewrite E2, E1, app_assoc.
Qed.

Lemma appending_index (self : rhreports) (l : list Q) (i : nat) :
  appending self (index l i).
Proof.
  unfold index. destruct (nth_error l i);
    [apply appending_ret|apply appending_raise].
Qed.

Lemma appending_getitem (self : rhreports) {A} (key : string) (v : option A) :
  appending self (getitem key v).
Proof. destruct v; [apply appending_ret|apply appending_raise]. Qed.

Lemma appending_local (self : rhreports) (name : string) (v : option nat) :
  appending self (local name v).
Proof. destruct v; [apply appending_ret|apply appending_raise]. Qed.

Lemma appending_assert (self : rhreports) (c : bool) :
  appending self (assert c).
Proof. destruct c; [apply appending_ret|apply appending_raise]. Qed.

Lemma appending_unpack4 (self : rhreports) (pos : list Q) :
  appending self (unpack4 pos).
Proof.
  destruct pos as [|x [|y [|wd [|ht [|extra rest]]]]];
    try apply appending_raise. apply appending_ret.
Qed.

Lemma appending_py_div (self : rhreports) (p q : Q) :
  appending self (py_div p q).
Proof.
  unfold py_div. destruct (Qeq_bool q 0);
    [apply appending_raise|apply appending_ret].
Qed.

Lemma appending_print (self : rhreports) (msg : string) :
  appending self (print msg).
Proof.
  intros w Hal. split; [exact Hal|]. exists []. now rewrite app_nil_r.
Qed.

Lemma appending_paint (self : rhreports) (l : list artist) :
  appending self (fun w => (Ok tt, paint self l w)).
Proof.
  intros w Hal. simpl. split; [now apply alive_paint|].
  exists l. now apply drawn_paint.
Qed.

Lemma appending_ax_text (self : rhreports) (x y : Q) (s : pyval) (k : text_kw) :
  appending self (ax_text self x y s k).
Proof. apply appending_paint. Qed.

Lemma appending_ax_axhline (self : rhreports) (y xmin xmax : Q) (c : colour)
  (lw : Q) :
  appending self (ax_axhline self y xmin xmax c lw).
Proof. apply appending_paint. Qed.

(** A change to the figure that leaves its main axes alone. *)
Lemma appending_beside (self : rhreports) {A} (r : world -> A)
  (f : figure -> figure) :
  (forall g, main (f g) = main g) ->
  appending self (fun w => (Ok (r w), on_fig (fig self) f w)).
Proof.
  intros Hf w (g & a & Hg & Ha). simpl.
  assert (E : surface self (on_fig (fig self) f w) = Some (f g)).
  { unfold surface, on_fig in *. simpl.
    now rewrite nth_error_update, Nat.eqb_refl, Hg. }
  split.
  - exists (f g), a. split; [exact E|]. now rewrite Hf.
  - exists []. unfold drawn. rewrite E, Hg, Hf, app_nil_r. reflexivity.
Qed.

Lemma appending_fig_add_axes (self : rhreports) (r : list Q) :
  appending self (fig_add_axes self r).
Proof. unfold fig_add_axes. now apply appending_beside. Qed.

Lemma appending_ax_imshow (self : rhreports) (h : nat) (im : image)
  (interpolation : string) :
  appending self (ax_imshow self h im interpolation).
Proof.
  unfold ax_imshow. now apply (@appending_beside self unit (fun _ => tt)).
Qed.

Lemma appending_ax_axis_off (self : rhreports) (h : nat) :
  appending self (ax_axis_off self h).
Proof.
  unfold ax_axis_off. now apply (@appending_beside self unit (fun _ => tt)).
Qed.

#[local] Hint Resolve appending_ret appending_raise appending_read
  appending_index appending_getitem appending_local appending_assert
  appending_unpack4 appending_py_div appending_print appending_ax_text
  appending_ax_axhline appending_fig_add_axes appending_ax_imshow
  appending_ax_axis_off : appending.

Ltac append :=
  repeat match goal with
         | |- appending _ (bind _ _) => apply appending_bind; [|intro]
         | |- appending _ (match ?x with _ => _ end) => destruct x
         | |- _ => solve [auto with appending]
         | |- _ => solve [apply appending_unchanged; reflexivity]
         | |- _ => progress cbv zeta
         end.

Section Appending.

Variable self : rhreports.

Lemma appending_axes_loop (x y colwidth height : Q) (range : list nat) :
  forall axs, appending self (axes_loop self x y colwidth height range axs).
Proof. induction range as [|i rest IH]; intros axs; simpl; append. Qed.

Lemma appending_fields_loop (x y width : Q) (nfields : nat) (x0 colwidth : Q)
  (cumsum : list nat) (items : list (string * pyval)) :
  forall i,
    appending self
      (fields_loop self x y width nfields x0 colwidth cumsum i items).
Proof.
  induction items as [|[k v] rest IH]; intros i; simpl; append.
Qed.

Lemma appending_header_loop (x y colwidth : Q) (rowheader : nat)
  (keys : list string) :
  forall col bound,
    appending self (header_loop self x y colwidth rowheader col keys bound).
Proof.
  induction keys as [|key rest IH]; intros col bound; simpl; append.
Qed.

Lemma appending_rows_loop (x y colwidth : Q) (rowheader : bool) (col : nat)
  (values : list (string * pyval)) :
  forall row bound,
    appending self
      (rows_loop self x y colwidth rowheader col row values bound).
Proof.
  induction values as [|[key value] rest IH]; intros row bound; simpl; append.
Qed.

Lemma appending_body_loop (x y colwidth : Q) (rowheader : bool)
  (items : table) :
  forall col bound,
    appending self (body_loop self x y colwidth rowheader col items bound).
Proof.
  induction items as [|[name values] rest IH]; intros col bound; simpl.
  - append.
  - apply appending_bind; [apply appending_rows_loop|]. intros row. apply IH.
Qed.

Hint Resolve appending_axes_loop appending_fields_loop appending_header_loop
  appending_body_loop : appending.

(** X1.  Whatever a drawing method of a live report does, and whether it
    returns or raises, the report stays live and the artists already on
    [self.ax] stay as they are, in their order: the method only appends. *)
Theorem drawing_only_appends :
  forall (bbox_width : world -> rhreports -> artist -> result Q)
         (imread : option string -> result image) (rc_text_color : colour),
    (forall ypos title subtitle,
        appending self (set_title bbox_width self ypos title subtitle))
    /\ (forall pos ncols, appending self (create_axes self pos ncols))
    /\ (forall xpos ypos txt kwargs,
           appending self (add_text self xpos ypos txt kwargs))
    /\ (forall pos fields, appending self (set_demographics self pos fields))
    /\ (forall pos data rowheader,
           appending self (create_table self pos data rowheader))
    /\ (forall data ypos,
           appending self (set_footer imread rc_text_color self data ypos)).
Proof.
  intros bbox_width imread rc_text_color. repeat apply conj; intros.
  - unfold set_title. append.
  - unfold create_axes. append.
  - unfold add_text. append.
  - unfold set_demographics. append.
  - unfold create_table. append.
  - unfold set_footer, footer_step. append.
Qed.

End Appending.

Lemma drawing_only_appends_witness :
  alive report0 page0
  /\ alive report0
       (snd (create_table report0 [0.1; 0.8; 0.8; 0.3] labs true page0))
  /\ exists l,
       drawn report0
         (snd (create_table report0 [0.1; 0.8; 0.8; 0.3] labs true page0))
       = drawn report0 page0 ++ l.
Proof.
  refine (conj alive_page0 _).
  exact (proj1 (proj2 (proj2 (proj2 (proj2
           (@drawing_only_appends report0 ruler imread_logo black)))))
           [0.1; 0.8; 0.8; 0.3] labs true page0 alive_page0).
Defined.

Create HintDb offstage.

Lemma length_update {A} (f : A -> A) (i : nat) (l : list A) :
  List.length (update i f l) = List.length l.
Proof.
  revert i.
  induction l as [|a l IH]; intros [|i]; simpl; try reflexivity.
  now rewrite IH.
Qed.

Lemma offstage_unchanged {A} (m : M A) :
  (forall w, snd (m w) = w) -> offstage m.
Proof. intros H w. rewrite H. auto. Qed.

Lemma offstage_ret {A} (x : A) : offstage (ret x).
Proof. now apply offstage_unchanged. Qed.

Lemma offstage_raise {A} (e : exn) : offstage (@raise A e).
Proof. now apply offstage_unchanged. Qed.

Lemma offstage_bind {A B} (m : M A) (k : A -> M B) :
  offstage m -> (forall x, offstage (k x)) -> offstage (bind m k).
Proof.
  intros Hm Hk w. destruct (Hm w) as (O1 & D1 & L1). unfold bind.
  destruct (m w) as [[x|e] w1]; simpl in *; [|auto].
  destruct (Hk x w1) as (O2 & D2 & L2).
  rewrite O2, D2, L2. auto.
Qed.

Lemma offstage_index (l : list Q) (i : nat) : offstage (index l i).
Proof.
  unfold index. destruct (nth_error l i);
    [apply offstage_ret|apply offstage_raise].
Qed.

Lemma offstage_getitem {A} (key : string) (v : option A) :
  offstage (getitem key v).
Proof. destruct v; [apply offstage_ret|apply offstage_raise]. Qed.

Lemma offstage_local (name : string) (v : option nat) :
  offstage (local name v).
Proof. destruct v; [apply offstage_ret|apply offstage_raise]. Qed.

Lemma offstage_assert (c : bool) : offstage (assert c).
Proof. destruct c; [apply offstage_ret|apply offstage_raise]. Qed.

Lemma offstage_unpack4 (pos : list Q) : offstage (unpack4 pos).
Proof.
  destruct pos as [|x [|y [|wd [|ht [|extra rest]]]]];
    try apply offstage_raise. apply offstage_ret.
Qed.

Lemma offstage_py_div (p q : Q) : offstage (py_div p q).
Proof.
  unfold py_div. destruct (Qeq_bool q 0);
    [apply offstage_raise|apply offstage_ret].
Qed.

Lemma offstage_print (msg : string) : offstage (print msg).
Proof. intros w. simpl. auto. Qed.

Lemma offstage_on_fig {A} (r : world -> A) (i : nat) (f : figure -> figure) :
  offstage (fun w => (Ok (r w), on_fig i f w)).
Proof. intros w. simpl. rewrite length_update. auto. Qed.

Lemma offstage_ax_text (self : rhreports) (x y : Q) (s : pyval) (k : text_kw) :
  offstage (ax_text self x y s k).
Proof. apply (@offstage_on_fig unit (fun _ => tt)). Qed.

Lemma offstage_ax_axhline (self : rhreports) (y xmin xmax : Q) (c : colour)
  (lw : Q) :
  offstage (ax_axhline self y xmin xmax c lw).
Proof. apply (@offstage_on_fig unit (fun _ => tt)). Qed.

Lemma offstage_fig_add_axes (self : rhreports) (r : list Q) :
  offstage (fig_add_axes self r).
Proof. unfold fig_add_axes. apply offstage_on_fig. Qed.

Lemma offstage_ax_imshow (self : rhreports) (h : nat) (im : image)
  (interpolation : string) :
  offstage (ax_imshow self h im interpolation).
Proof. apply (@offstage_on_fig unit (fun _ => tt)). Qed.

Lemma offstage_ax_axis_off (self : rhreports) (h : nat) :
  offstage (ax_axis_off self h).
Proof. apply (@offstage_on_fig unit (fun _ => tt)). Qed.

#[local] Hint Resolve offstage_ret offstage_raise offstage_index
  offstage_getitem offstage_local offstage_assert offstage_unpack4
  offstage_py_div offstage_print offstage_ax_text offstage_ax_axhline
  offstage_fig_add_axes offstage_ax_imshow offstage_ax_axis_off : offstage.

Ltac stay :=
  repeat match goal with
         | |- offstage (bind _ _) => apply offstage_bind; [|intro]
         | |- offstage (match ?x with _ => _ end) => destruct x
         | |- _ => solve [auto with offstage]
         | |- _ => solve [apply offstage_unchanged; reflexivity]
         | |- _ => progress cbv zeta
         end.

Section Offstage.

Variable self : rhreports.

Lemma offstage_axes_loop (x y colwidth height : Q) (range : list nat) :
  forall axs, offstage (axes_loop self x y colwidth height range axs).
Proof. induction range as [|i rest IH]; intros axs; simpl; stay. Qed.

Lemma offstage_fields_loop (x y width : Q) (nfields : nat) (x0 colwidth : Q)
  (cumsum : list nat) (items : list (string * pyval)) :
  forall i,
    offstage (fields_loop self x y width nfields x0 colwidth cumsum i items).
Proof.
  induction items as [|[k v] rest IH]; intros i; simpl; stay.
Qed.

Lemma offstage_header_loop (x y colwidth : Q) (rowheader : nat)
  (keys : list string) :
  forall col bound,
    offstage (header_loop self x y colwidth rowheader col keys bound).
Proof.
  induction keys as [|key rest IH]; intros col bound; simpl; stay.
Qed.

Lemma offstage_rows_loop (x y colwidth : Q) (rowheader : bool) (col : nat)
  (values : list (string * pyval)) :
  forall row bound,
    offstage (rows_loop self x y colwidth rowheader col row values bound).
Proof.
  induction values as [|[key value] rest IH]; intros row bound; simpl; stay.
Qed.

Lemma offstage_body_loop (x y colwidth : Q) (rowheader : bool)
  (items : table) :
  forall col bound,
    offstage (body_loop self x y colwidth rowheader col items bound).
Proof.
  induction items as [|[name values] rest IH]; intros col bound; simpl.
  - stay.
  - apply offstage_bind; [apply offstage_rows_loop|]. intros row. apply IH.
Qed.

Hint Resolve offstage_axes_loop offstage_fields_loop offstage_header_loop
  offstage_body_loop : offstage.

(** X2.  No drawing method opens, closes or makes current a figure, writes
    a file, or creates a figure object: pyplot's table of open figures, the
    files and the number of figures are after the call what they were
    before it, on the error paths too. *)
Theorem drawing_stays_offstage :
  forall (bbox_width : world -> rhreports -> artist -> result Q)
         (imread : option string -> result image) (rc_text_color : colour),
    (forall ypos title subtitle,
        offstage (set_title bbox_width self ypos title subtitle))
    /\ (forall pos ncols, offstage (create_axes self pos ncols))
    /\ (forall xpos ypos txt kwargs,
           offstage (add_text self xpos ypos txt kwargs))
    /\ (forall pos fields, offstage (set_demographics self pos fields))
    /\ (forall pos data rowheader,
           offstage (create_table self pos data rowheader))
    /\ (forall data ypos,
           offstage (set_footer imread rc_text_color self data ypos)).
Proof.
  intros bbox_width imread rc_text_color. repeat apply conj; intros.
  - unfold set_title. stay.
  - unfold create_axes. stay.
  - unfold add_text. stay.
  - unfold set_demographics. stay.
  - unfold create_table. stay.
  - unfold set_footer, footer_step. stay.
Qed.

End Offstage.

Lemma drawing_stays_offstage_witness :
  open_figs (snd (set_footer imread_logo black report0 letterhead None page0))
  = open_figs page0
  /\ disk (snd (set_footer imread_logo black report0 letterhead None page0))
     = disk page0
  /\ List.length
       (figs (snd (set_footer imread_logo black report0 letterhead None page0)))
     = List.length (figs page0).
Proof.
  exact (proj2 (proj2 (proj2 (proj2 (proj2
           (@drawing_stays_offstage report0 ruler imread_logo black)))))
           letterhead None page0).
Defined.

(** ** Creating and saving *)

Lemma last_open_app (l : list nat) (i : nat) : last_open (l ++ [i]) = Some i.
Proof.
  induction l as [|j l IH]; [reflexivity|].
  simpl. rewrite IH. now destruct (l ++ [i]) eqn:E; [destruct l|].
Qed.

Lemma init_run (w : world) :
  __init__ w
  = (Ok (report_at (List.length (figs w))),
     {| figs := figs w ++ [blank_page];
        open_figs := open_figs w ++ [List.length (figs w)];
        stdout := stdout w; disk := disk w |}).
Proof.
  unfold __init__, plt_subplots, register, bind, ret, on_fig. simpl.
  now rewrite update_last.
Qed.

(** X3.  [__init__] allocates a figure object of its own: the new report
    has the margins [0.075, 0.075, 0.05, 0.075] and a blank A4 page (white,
    frame off, nothing drawn, no axes added); its figure is pyplot's
    current figure; every figure that existed is left as it was, and
    nothing is printed or written. *)
Theorem new_report_is_blank_and_current :
  forall (w : world),
    let self := report_at (List.length (figs w)) in
    let w' := snd (__init__ w) in
    fst (__init__ w) = Ok self
    /\ surface self w' = Some blank_page
    /\ alive self w'
    /\ last_open (open_figs w') = Some (fig self)
    /\ (forall other, (fig other < List.length (figs w))%nat ->
                      surface other w' = surface other w)
    /\ stdout w' = stdout w
    /\ disk w' = disk w.
Proof.
  intros w self w'. subst w'. rewrite init_run. cbn [fst snd].
  assert (E : surface self
                {| figs := figs w ++ [blank_page];
                   open_figs := open_figs w ++ [List.length (figs w)];
                   stdout := stdout w; disk := disk w |}
              = Some blank_page).
  { unfold surface. simpl. rewrite nth_error_app2 by lia.
    now rewrite Nat.sub_diag. }
  repeat apply conj; try reflexivity.
  - exact E.
  - unfold alive. rewrite E. eexists. eexists. split; reflexivity.
  - apply last_open_app.
  - intros other Hlt. unfold surface. simpl. now rewrite nth_error_app1.
Qed.

Lemma new_report_witness :
  (fig report0 < List.length (figs page0))%nat
  /\ fst (__init__ page0) = Ok (report_at 1)
  /\ surface (report_at 1) (snd (__init__ page0)) = Some blank_page
  /\ surface report0 (snd (__init__ page0)) = surface report0 page0.
Proof.
  assert (Hlt : (fig report0 < List.length (figs page0))%nat)
    by (simpl; lia).
  pose proof (new_report_is_blank_and_current page0) as H.
  refine (conj Hlt (conj (proj1 H) (conj (proj1 (proj2 H)) _))).
  exact (proj1 (proj2 (proj2 (proj2 (proj2 H)))) report0 Hlt).
Defined.

(** X4.  When the figure of [self] is pyplot's current figure and [save]
    returns, it returns the file name, the file holds the surface of
    [self] as it is at that moment, the figure is no longer open
    afterwards, and no figure object is changed. *)
Theorem save_exports_own_surface_when_current :
  forall (self : rhreports) (filename : string) (w : world) (g : figure)
         (name : string),
    last_open (open_figs w) = Some (fig self) ->
    surface self w = Some g ->
    fst (save self filename w) = Ok name ->
    let w' := snd (save self filename w) in
    name = filename
    /\ read_file (disk w') filename = Some g
    /\ ~ In (fig self) (open_figs w')
    /\ figs w' = figs w.
Proof.
  intros self filename w g name Hcur Hg.
  rewrite (save_writes_current_figure self filename w Hcur Hg). cbn [fst snd].
  intros Hname. inversion Hname; subst name.
  repeat apply conj; try reflexivity.
  - simpl. now rewrite String.eqb_refl.
  - simpl. intros Hin. apply filter_In in Hin. destruct Hin as [_ Hin].
    now rewrite Nat.eqb_refl in Hin.
Qed.

Lemma save_exports_own_surface_witness :
  last_open (open_figs page0) = Some (fig report0)
  /\ surface report0 page0 = Some blank_page
  /\ fst (save report0 "empty.pdf" page0) = Ok "empty.pdf"%string
  /\ read_file (disk (snd (save report0 "empty.pdf" page0))) "empty.pdf"
     = Some blank_page
  /\ ~ In (fig report0) (open_figs (snd (save report0 "empty.pdf" page0))).
Proof.
  refine (conj eq_refl (conj eq_refl (conj eq_refl _))).
  pose proof (@save_exports_own_surface_when_current report0 "empty.pdf" page0
                blank_page "empty.pdf" eq_refl eq_refl eq_refl) as H.
  exact (conj (proj1 (proj2 H)) (proj1 (proj2 (proj2 H)))).
Defined.

(** X5.  A report that is created, drawn on by any code that stays off
    pyplot's table (as every drawing method does), and then saved, with no
    error on the way, is exported as drawn: the file holds the figure of
    that report as it is at the end. *)
Theorem lone_report_is_exported_as_drawn :
  forall (A : Type) (draw : rhreports -> M A) (filename : string) (w : world)
         (name : string),
    (forall r, offstage (draw r)) ->
    let script := (r <- __init__ ;; draw r ;; save r filename) in
    fst (script w) = Ok name ->
    name = filename
    /\ read_file (disk (snd (script w))) filename
       = surface (report_at (List.length (figs w))) (snd (script w))
    /\ read_file (disk (snd (script w))) filename <> None.
Proof.
  intros A draw filename w name Hoff script. subst script.
  rewrite (@bind_run _ _ _ _ w _ _ (init_run w)).
  set (r := report_at (List.length (figs w))).
  set (w0 := {| figs := figs w ++ [blank_page];
                open_figs := open_figs w ++ [List.length (figs w)];
                stdout := stdout w; disk := disk w |}).
  destruct (Hoff r w0) as (Hopen & _ & Hlen).
  destruct (draw r w0) as [[a|e] w1] eqn:Ed.
  2:{ now rewrite (@bind_fail _ _ _ _ w0 e w1 Ed). }
  rewrite (@bind_run _ _ _ _ w0 a w1 Ed).
  cbn [snd] in Hopen, Hlen.
  assert (Hcur : last_open (open_figs w1) = Some (fig r)).
  { rewrite Hopen. apply last_open_app. }
  destruct (nth_error (figs w1) (fig r)) as [g|] eqn:Hg.
  2:{ apply nth_error_None in Hg. rewrite Hlen in Hg. simpl in Hg.
      rewrite length_app in Hg. simpl in Hg. lia. }
  rewrite (save_writes_current_figure r filename w1 Hcur Hg). cbn [fst snd].
  intros Hname. inversion Hname; subst name.
  repeat apply conj.
  - reflexivity.
  - unfold surface. cbn [disk figs read_file]. rewrite String.eqb_refl.
    symmetry. exact Hg.
  - cbn [disk read_file]. rewrite String.eqb_refl. discriminate.
Qed.

Lemma lone_report_witness :
  let script :=
    (r <- __init__ ;;
     set_demographics r [0.1; 0.8; 0.8; 0.04] patient ;;
     save r "strip.pdf") in
  (forall r, offstage (set_demographics r [0.1; 0.8; 0.8; 0.04] patient))
  /\ fst (script boot) = Ok "strip.pdf"%string
  /\ read_file (disk (snd (script boot))) "strip.pdf"
     = surface (report_at 0) (snd (script boot)).
Proof.
  intros script.
  assert (Hoff : forall r, offstage (set_demographics r [0.1; 0.8; 0.8; 0.04] patient)).
  { intros r.
    exact (proj1 (proj2 (proj2 (proj2
             (@drawing_stays_offstage r ruler imread_logo black))))
             [0.1; 0.8; 0.8; 0.04] patient). }
  refine (conj Hoff (conj eq_refl _)).
  exact (proj1 (proj2 (@lone_report_is_exported_as_drawn unit
                         (fun r => set_demographics r [0.1; 0.8; 0.8; 0.04] patient)
                         "strip.pdf" boot "strip.pdf" Hoff eq_refl))).
Defined.

(** X6.  Saving twice does not write the report twice.  When the figure of
    [self] is the only open figure and both calls of [save] return, the
    first one closes the figure; the second one finds no current figure,
    so pyplot opens an empty figure of its default size, that figure is
    what the file holds in the end, and it stays open. *)
Theorem second_save_exports_an_empty_figure :
  forall (self : rhreports) (filename : string) (w : world) (g : figure)
         (name : string),
    open_figs w = [fig self] ->
    surface self w = Some g ->
    let twice := (save self filename ;; save self filename) in
    fst (twice w) = Ok name ->
    name = filename
    /\ read_file (disk (snd (twice w))) filename = Some default_figure
    /\ open_figs (snd (twice w)) = [List.length (figs w)]
    /\ surface self (snd (twice w)) = Some g.
Proof.
  intros self filename w g name Hopen Hg twice. subst twice.
  assert (Hcur : last_open (open_figs w) = Some (fig self))
    by now rewrite Hopen.
  assert (Hlt : (fig self < List.length (figs w))%nat).
  { apply nth_error_Some. unfold surface in Hg. congruence. }
  rewrite (@bind_run _ _ _ _ w _ _
             (save_writes_current_figure self filename w Hcur Hg)).
  rewrite Hopen. simpl filter. rewrite Nat.eqb_refl. simpl.
  unfold save, plt_savefig, plt_gcf, plt_close, register, bind, ret. simpl.
  rewrite nth_error_app2 by lia. rewrite Nat.sub_diag. simpl.
  rewrite String.eqb_refl.
  replace (Nat.eqb (List.length (figs w)) (fig self)) with false
    by (symmetry; apply Nat.eqb_neq; lia).
  intros Hname. inversion Hname; subst name.
  repeat apply conj; try reflexivity.
  unfold surface. simpl. now rewrite nth_error_app1.
Qed.

Lemma second_save_witness :
  open_figs page0 = [fig report0]
  /\ surface report0 page0 = Some blank_page
  /\ fst ((save report0 "p.pdf" ;; save report0 "p.pdf") page0)
     = Ok "p.pdf"%string
  /\ read_file
       (disk (snd ((save report0 "p.pdf" ;; save report0 "p.pdf") page0)))
       "p.pdf"
     = Some default_figure.
Proof.
  refine (conj eq_refl (conj eq_refl (conj eq_refl _))).
  exact (proj1 (proj2 (@second_save_exports_an_empty_figure report0 "p.pdf"
                         page0 blank_page "p.pdf" eq_refl eq_refl eq_refl))).
Defined.

(** ** Columns of axes *)

Lemma on_fig_on_fig (i : nat) (f h : figure -> figure) (w : world) :
  on_fig i f (on_fig i h w) = on_fig i (fun g => f (h g)) w.
Proof. unfold on_fig. simpl. now rewrite update_update. Qed.

Lemma on_fig_ext (i : nat) (f h : figure -> figure) (w : world) :
  (forall g, f g = h g) -> on_fig i f w = on_fig i h w.
Proof. intros E. unfold on_fig. now rewrite (update_ext f h i (figs w) E). Qed.

Lemma on_fig_id (i : nat) (f : figure -> figure) (w : world) :
  (forall g, f g = g) -> on_fig i f w = w.
Proof.
  intros E. unfold on_fig. rewrite (update_id f i (figs w) E). now destruct w.
Qed.

Lemma surface_on_fig (self : rhreports) (f : figure -> figure) (w : world) :
  surface self (on_fig (fig self) f w) = option_map f (surface self w).
Proof.
  unfold surface, on_fig. simpl. now rewrite nth_error_update, Nat.eqb_refl.
Qed.

Lemma push_all_nil (g : figure) : push_all [] g = g.
Proof. destruct g. unfold push_all. simpl. now rewrite app_nil_r. Qed.

Lemma axes_loop_run (self : rhreports) (x y colwidth height : Q)
  (range : list nat) :
  forall (axs : list nat) (w : world) (g : figure),
    surface self w = Some g ->
    axes_loop self x y colwidth height range axs w
    = (Ok (axs ++ seq (List.length (added g)) (List.length range)),
       on_fig (fig self)
         (push_all (map (column_axes x y colwidth height) range)) w).
Proof.
  induction range as [|i rest IH]; intros axs w g Hg; simpl.
  - unfold ret. rewrite app_nil_r, (on_fig_id _ _ w push_all_nil).
    reflexivity.
  - unfold bind, fig_add_axes. unfold surface in Hg. rewrite Hg.
    set (r := [x + qnat i * colwidth; y; colwidth; height]).
    rewrite (IH _ _ (push_axes (new_axes r) g)).
    2:{ rewrite surface_on_fig. unfold surface. now rewrite Hg. }
    rewrite on_fig_on_fig. f_equal.
    + f_equal. rewrite <- app_assoc. simpl. f_equal. f_equal.
      unfold push_axes. simpl. rewrite length_app. simpl. f_equal. lia.
    + apply on_fig_ext. intros g0. unfold push_all, push_axes. simpl.
      now rewrite <- app_assoc.
Qed.

Lemma inject_Z_to_nat (z : Z) : (0 < z)%Z -> qnat (Z.to_nat z) = inject_Z z.
Proof. intros H. unfold qnat. now rewrite Z2Nat.id by lia. Qed.

(** X7.  On a region within bounds, of a width and a height that are not
    negative, and a positive number of columns, [create_axes] returns one
    handle per column, in order, and adds exactly that many axes behind
    those the figure has: column [i] at
    [[x + i * colwidth, y, colwidth, height]] with
    [colwidth = width / ncols].  Nothing is drawn on [self.ax].  The columns
    tile the region: each starts where the one before ends, and the last
    one ends at [x + width]. *)
Theorem create_axes_tiles_the_region :
  forall (self : rhreports) (x y width height : Q) (ncols : Z) (w : world)
         (g : figure),
    surface self w = Some g ->
    x + width <= 1 ->
    0 <= width ->
    0 <= height ->
    (0 < ncols)%Z ->
    let n := Z.to_nat ncols in
    let colwidth := width / inject_Z ncols in
    let res := create_axes self [x; y; width; height] ncols w in
    fst res = Ok (seq (List.length (added g)) n)
    /\ surface self (snd res)
       = Some (push_all (map (column_axes x y colwidth height) (seq 0 n)) g)
    /\ 0 <= colwidth
    /\ (forall i, x + qnat i * colwidth + colwidth == x + qnat (S i) * colwidth)
    /\ x + qnat n * colwidth == x + width.
Proof.
  intros self x y width height ncols w g Hg Hb Hw Hh Hpos n colwidth res.
  subst res. apply Qle_bool_true in Hb.
  unfold create_axes, unpack4, assert, bind, ret. rewrite Hb.
  unfold ret, py_div. cbv beta iota zeta.
  assert (Hnz : ~ inject_Z ncols == 0).
  { unfold Qeq. simpl. lia. }
  replace (Qeq_bool (inject_Z ncols) 0) with false.
  2:{ symmetry. apply not_true_iff_false. intros E.
      now apply Qeq_bool_iff in E. }
  unfold ret. cbv beta iota zeta.
  rewrite (axes_loop_run self x y (width / inject_Z ncols) height
             (seq 0 (Z.to_nat ncols)) [] w Hg).
  cbn [fst snd]. rewrite length_seq, surface_on_fig, Hg. simpl.
  repeat apply conj; try reflexivity.
  - subst colwidth. apply Qle_shift_div_l.
    + unfold Qlt. simpl. lia.
    + now rewrite Qmult_0_l.
  - intros i. unfold qnat. rewrite Nat2Z.inj_succ. unfold Z.succ.
    rewrite inject_Z_plus. ring.
  - subst n colwidth. rewrite inject_Z_to_nat by assumption.
    field. exact Hnz.
Qed.

Lemma create_axes_tiles_witness :
  surface report0 page0 = Some blank_page
  /\ 0.1 + 0.8 <= 1
  /\ 0 <= 0.8
  /\ 0 <= 0.3
  /\ (0 < 2)%Z
  /\ fst (create_axes report0 [0.1; 0.2; 0.8; 0.3] 2 page0) = Ok [0%nat; 1%nat]
  /\ surface report0 (snd (create_axes report0 [0.1; 0.2; 0.8; 0.3] 2 page0))
     = Some (push_all (map (column_axes 0.1 0.2 (0.8 / inject_Z 2) 0.3)
                         [0%nat; 1%nat]) blank_page).
Proof.
  assert (Hb : 0.1 + 0.8 <= 1) by (vm_compute; discriminate).
  assert (Hw : 0 <= 0.8) by (vm_compute; discriminate).
  assert (Hh : 0 <= 0.3) by (vm_compute; discriminate).
  assert (Hp : (0 < 2)%Z) by lia.
  refine (conj eq_refl (conj Hb (conj Hw (conj Hh (conj Hp _))))).
  pose proof (@create_axes_tiles_the_region report0 0.1 0.2 0.8 0.3 2 page0
                blank_page eq_refl Hb Hw Hh Hp) as H.
  exact (conj (proj1 H) (proj1 (proj2 H))).
Defined.

(** X8.  On a region within bounds, [create_axes] with zero columns raises
    the division error of [width / ncols], and with a negative number of
    columns returns the empty list; in both cases nothing is added. *)
Theorem create_axes_without_columns :
  forall (self : rhreports) (x y width height : Q) (ncols : Z) (w : world),
    x + width <= 1 ->
    (ncols <= 0)%Z ->
    create_axes self [x; y; width; height] ncols w
    = (if (ncols =? 0)%Z then Raise ZeroDivisionError else Ok [], w).
Proof.
  intros self x y width height ncols w Hb Hn. apply Qle_bool_true in Hb.
  unfold create_axes, unpack4, assert, bind, ret. rewrite Hb.
  unfold ret, py_div. cbv beta iota zeta.
  destruct (Z.eqb_spec ncols 0) as [->|Hne].
  - reflexivity.
  - replace (Qeq_bool (inject_Z ncols) 0) with false.
    2:{ symmetry. apply not_true_iff_false. intros E.
        apply Qeq_bool_iff in E. unfold Qeq in E. simpl in E. lia. }
    unfold ret. cbv beta iota zeta.
    replace (Z.to_nat ncols) with O by lia. reflexivity.
Qed.

Lemma create_axes_without_columns_witness :
  0.1 + 0.8 <= 1
  /\ (0 <= 0)%Z
  /\ create_axes report0 [0.1; 0.2; 0.8; 0.3] 0 page0
     = (Raise ZeroDivisionError, page0).
Proof.
  assert (Hb : 0.1 + 0.8 <= 1) by (vm_compute; discriminate).
  assert (Hn : (0 <= 0)%Z) by lia.
  refine (conj Hb (conj Hn _)).
  exact (@create_axes_without_columns report0 0.1 0.2 0.8 0.3 0 page0 Hb Hn).
Defined.

(** X9.  A region that is not a list of exactly four numbers makes
    [create_axes], [set_demographics] and [create_table] raise the error of
    the unpacking [x, y, width, height = pos], before the bounds check and
    before any drawing. *)
Theorem region_of_wrong_length_is_rejected :
  forall (self : rhreports) (pos : list Q) (ncols : Z)
         (fields : list (string * pyval)) (data : table) (rowheader : bool)
         (w : world),
    List.length pos <> 4%nat ->
    create_axes self pos ncols w = (Raise ValueError, w)
    /\ set_demographics self pos fields w = (Raise ValueError, w)
    /\ create_table self pos data rowheader w = (Raise ValueError, w).
Proof.
  intros self pos ncols fields data rowheader w Hlen.
  unfold create_axes, set_demographics, create_table, bind.
  destruct pos as [|x [|y [|wd [|ht [|extra rest]]]]]; simpl in Hlen;
    try (repeat split; reflexivity).
  congruence.
Qed.

Lemma region_of_wrong_length_witness :
  List.length [0.1; 0.2; 0.8] <> 4%nat
  /\ set_demographics report0 [0.1; 0.2; 0.8] patient page0
     = (Raise ValueError, page0).
Proof.
  assert (Hl : List.length [0.1; 0.2; 0.8] <> 4%nat) by (simpl; lia).
  refine (conj Hl _).
  exact (proj1 (proj2 (@region_of_wrong_length_is_rejected report0
                         [0.1; 0.2; 0.8] 1 patient [] true page0 Hl))).
Defined.

(** ** More on the demographics strip *)




Lemma np_sum_firstn_le (a : list nat) (i : nat) :
  (np_sum (firstn i a) <= np_sum a)%nat.
Proof.
  revert i. induction a as [|n a IH]; intros [|i]; simpl;
    try (unfold np_sum; simpl; lia).
  rewrite !np_sum_cons. specialize (IH i). lia.
Qed.

Lemma qnat_le (a b : nat) : (a <= b)%nat -> qnat a <= qnat b.
Proof. intros H. unfold qnat, Qle. simpl. lia. Qed.

Lemma qnat_nonneg (a : nat) : 0 <= qnat a.
Proof. unfold qnat, Qle. simpl. lia. Qed.

(** A share [a / b] of a non-negative length [d], for counts [a <= b]. *)
Lemma share_bounds (a b : nat) (d : Q) :
  (a <= b)%nat -> (0 < b)%nat -> 0 <= d ->
  0 <= qnat a * (d / qnat b) /\ qnat a * (d / qnat b) <= d.
Proof.
  intros Hab Hb Hd.
  assert (Hbpos : 0 < qnat b) by (unfold qnat, Qlt; simpl; lia).
  assert (Hq : 0 <= d / qnat b).
  { apply Qle_shift_div_l; [exact Hbpos|]. now rewrite Qmult_0_l. }
  split.
  - apply Qmult_le_0_compat; [apply qnat_nonneg|exact Hq].
  - apply Qle_trans with (qnat b * (d / qnat b)).
    + apply Qmult_le_compat_r; [now apply qnat_le|exact Hq].
    + rewrite Qmult_div_r; [apply Qle_refl|].
      intros E. rewrite E in Hbpos. now apply Qlt_irrefl in Hbpos.
Qed.

Lemma field_start_within (x width : Q) (fields : list (string * pyval))
  (i : nat) :
  0.02 <= width ->
  NoDup (map fst fields) ->
  (i < List.length fields)%nat ->
  x + 0.01 <= field_start x width fields i
  /\ field_start x width fields i <= x + width - 0.01.
Proof.
  intros Hw ND Hi.
  destruct i as [|i].
  - simpl. lra.
  - unfold field_start, col_width.
    destruct (@share_bounds (np_sum (firstn (S i) (map field_strlen fields)))
                (np_sum (map field_strlen fields)) (width - 0.02))
      as [H0 H1].
    + apply np_sum_firstn_le.
    + apply strlen_sum_pos; [assumption|lia].
    + lra.
    + set (share := qnat (np_sum (firstn (S i) (map field_strlen fields)))
                    * ((width - 0.02)
                       / qnat (np_sum (map field_strlen fields)))) in *.
      lra.
Qed.

Lemma fields_artists_within (x y width : Q) (fields : list (string * pyval))
  (items : list (string * pyval)) :
  0.02 <= width ->
  NoDup (map fst fields) ->
  forall i,
    (i + List.length items <= List.length fields)%nat ->
    Forall (anchored_within (x + 0.01) (x + width - 0.01))
      (fields_artists x y width (List.length fields) (x + 0.01)
         (col_width width fields) (np_cumsum (map field_strlen fields))
         i items).
Proof.
  intros Hw ND. induction items as [|f rest IH]; intros i Hi; simpl.
  - constructor.
  - simpl in Hi. apply Forall_app. split; [|apply IH; lia].
    unfold field_artists.
    destruct (Nat.ltb 1 (List.length fields)
              && Nat.eqb i (List.length fields - 1)).
    + repeat constructor; simpl; lra.
    + rewrite loop_xpos_is_field_start by lia.
      destruct (@field_start_within x width fields i Hw ND) as [Hlo Hhi];
        [lia|].
      repeat constructor; simpl; assumption.
Qed.

(** X11.  In a strip at least [0.02] wide, over a dict of fields, every
    text is anchored inside the strip, between the insets [x + 0.01] and
    [x + width - 0.01]: the proportional offsets never push a field past
    the right inset. *)
Theorem demographics_texts_stay_within_the_strip :
  forall (self : rhreports) (x y width height : Q)
         (fields : list (string * pyval)) (w : world),
    alive self w ->
    x + width <= 1 ->
    0.02 <= width ->
    NoDup (map fst fields) ->
    exists new,
      drawn self (snd (set_demographics self [x; y; width; height] fields w))
      = drawn self w ++ new
      /\ Forall (anchored_within (x + 0.01) (x + width - 0.01)) new.
Proof.
  intros self x y width height fields w Hal Hb Hw ND.
  rewrite set_demographics_run by assumption. cbn [snd].
  eexists. rewrite drawn_paint by assumption. split; [reflexivity|].
  apply Forall_app. split.
  - repeat constructor.
  - apply fields_artists_within; [assumption|assumption|simpl; lia].
Qed.

Lemma demographics_texts_within_witness :
  alive report0 page0
  /\ 0.1 + 0.8 <= 1
  /\ 0.02 <= 0.8
  /\ NoDup (map fst patient)
  /\ exists new,
       drawn report0
         (snd (set_demographics report0 [0.1; 0.8; 0.8; 0.04] patient page0))
       = drawn report0 page0 ++ new
       /\ Forall (anchored_within (0.1 + 0.01) (0.1 + 0.8 - 0.01)) new.
Proof.
  assert (Hb : 0.1 + 0.8 <= 1) by (vm_compute; discriminate).
  assert (Hw : 0.02 <= 0.8) by (vm_compute; discriminate).
  assert (ND : NoDup (map fst patient)).
  { repeat constructor; simpl; intuition discriminate. }
  refine (conj alive_page0 (conj Hb (conj Hw (conj ND _)))).
  exact (@demographics_texts_stay_within_the_strip report0 0.1 0.8 0.8 0.04
           patient page0 alive_page0 Hb Hw ND).
Defined.

(** ** More on the table *)

Lemma length_header_artists (x y colwidth : Q) (rowheader : nat)
  (keys : list string) :
  forall col,
    List.length (header_artists x y colwidth rowheader col keys)
    = List.length keys.
Proof.
  induction keys as [|k rest IH]; intros col; simpl; [reflexivity|].
  now rewrite IH.
Qed.

Lemma forallb_header_artists (x y colwidth : Q) (rowheader : nat)
  (keys : list string) :
  forall col,
    forallb is_text (header_artists x y colwidth rowheader col keys) = true.
Proof.
  induction keys as [|k rest IH]; intros col; simpl; [reflexivity|apply IH].
Qed.

Lemma body_artists_no_rows (x y colwidth : Q) (rowheader : bool)
  (items : table) :
  Forall (fun c => snd c = []) items ->
  forall col, body_artists x y colwidth rowheader col items = [].
Proof.
  induction 1 as [|[name values] rest Hc _ IH]; intros col; simpl;
    [reflexivity|].
  simpl in Hc. subst values. simpl. apply IH.
Qed.

Lemma body_row_no_rows (items : table) (bound : option nat) :
  Forall (fun c => snd c = []) items -> body_row items bound = bound.
Proof.
  induction 1 as [|[name values] rest Hc _ IH]; simpl; [reflexivity|].
  simpl in Hc. subst values. simpl. exact IH.
Qed.

(** X12.  A table that has columns but no row in any of them is drawn up
    to its header (the line, one bold header per column, the second line)
    and then fails: the closing divider reads the loop variable [row],
    which no iteration bound. *)
Theorem table_without_rows_fails_after_the_header :
  forall (self : rhreports) (x y width height : Q) (data : table)
         (rowheader : bool) (w : world),
    alive self w ->
    x + width <= 1 ->
    data <> [] ->
    Forall (fun c => snd c = []) data ->
    let res := create_table self [x; y; width; height] data rowheader w in
    fst res = Raise (UnboundLocalError "row")
    /\ exists headers,
         drawn self (snd res)
         = drawn self w
           ++ [HLine (y - 0.01) x (x + width) (Named "k") 1]
           ++ headers
           ++ [HLine (y - 0.04) x (x + width) (Named "k") 1]
         /\ List.length headers = List.length data
         /\ forallb is_text headers = true.
Proof.
  intros self x y width height data rowheader w Hal Hb Hne Hrows res.
  subst res.
  assert (Hn : (List.length data + (if rowheader then 1 else 0) <> 0)%nat)
    by (destruct data; [congruence|simpl; lia]).
  rewrite (@create_table_run self x y width height data rowheader w Hb Hn).
  rewrite (body_row_no_rows None Hrows).
  unfold closing_divider, local, bind, ret, raise.
  destruct data as [|d data]; [congruence|]. cbn [last_index fst snd].
  split; [reflexivity|].
  rewrite drawn_paint by assumption. unfold grid_artists.
  rewrite (body_artists_no_rows x y _ rowheader Hrows 0).
  eexists. split; [reflexivity|]. split.
  - now rewrite length_header_artists, length_map.
  - apply forallb_header_artists.
Qed.

Lemma table_without_rows_witness :
  alive report0 page0
  /\ 0.1 + 0.8 <= 1
  /\ [("Before"%string, @nil (string * pyval))] <> []
  /\ Forall (fun c : string * list (string * pyval) => snd c = [])
       [("Before"%string, [])]
  /\ fst (create_table report0 [0.1; 0.8; 0.8; 0.3] [("Before"%string, [])]
            false page0)
     = Raise (UnboundLocalError "row").
Proof.
  assert (Hb : 0.1 + 0.8 <= 1) by (vm_compute; discriminate).
  assert (Hne : [("Before"%string, @nil (string * pyval))] <> [])
    by discriminate.
  assert (Hr : Forall (fun c : string * list (string * pyval) => snd c = [])
                 [("Before"%string, [])]) by (repeat constructor).
  refine (conj alive_page0 (conj Hb (conj Hne (conj Hr _)))).
  exact (proj1 (@table_without_rows_fails_after_the_header report0 0.1 0.8 0.8
                  0.3 [("Before"%string, [])] false page0 alive_page0 Hb Hne
                  Hr)).
Defined.

Lemma body_row_rectangular (m : nat) (items : table) :
  (0 < m)%nat ->
  Forall (fun c => List.length (snd c) = m) items ->
  items <> [] ->
  forall bound, body_row items bound = Some (m - 1)%nat.
Proof.
  intros Hm Hall. induction Hall as [|[name values] rest Hc Hrest IH];
    intros Hne bound; [congruence|].
  simpl in Hc. simpl.
  assert (E : last_index 0 values bound = Some (m - 1)%nat).
  { destruct values as [|v values]; simpl in *; [lia|]. f_equal. lia. }
  rewrite E. destruct rest as [|c rest]; [reflexivity|].
  apply IH. discriminate.
Qed.

Lemma length_rows_artists (x y colwidth : Q) (rowheader : bool) (col : nat)
  (values : list (string * pyval)) :
  forall row,
    List.length (rows_artists x y colwidth rowheader col row values)
    = ((if Nat.eqb col 0 && rowheader then 4 else 2) * List.length values)%nat.
Proof.
  induction values as [|v rest IH]; intros row; simpl; [lia|].
  rewrite !length_app, IH. unfold cell_artists.
  destruct (Nat.eqb col 0 && rowheader); simpl; lia.
Qed.

Lemma length_body_artists (x y colwidth : Q) (rowheader : bool) (m : nat)
  (items : table) :
  Forall (fun c => List.length (snd c) = m) items ->
  forall col,
    List.length (body_artists x y colwidth rowheader col items)
    = (2 * m * List.length items
       + (if Nat.eqb col 0 && rowheader
          then match items with [] => 0 | _ => 2 * m end
          else 0))%nat.
Proof.
  induction 1 as [|[name values] rest Hc Hrest IH]; intros col; simpl.
  - destruct (Nat.eqb col 0 && rowheader); lia.
  - simpl in Hc. rewrite length_app, length_rows_artists, IH, Hc. simpl.
    destruct (Nat.eqb col 0 && rowheader); lia.
Qed.

(** X13.  A table with [n >= 1] columns of [m >= 1] rows each is drawn
    completely and the call returns.  The grid has the two header lines,
    [n] headers, a text and a divider for each of the [n * m] cells and,
    with the row header, a label and a divider for each of the [m] rows.
    The closing divider comes last: it lies under the last row and spans
    from [x + 0.01 + (n - 1) * colwidth] to [x + n * colwidth], the column
    index being taken without the shift of the row header. *)
Theorem rectangular_table_is_closed_by_one_divider :
  forall (self : rhreports) (x y width height : Q) (data : table)
         (rowheader : bool) (m : nat) (w : world),
    alive self w ->
    x + width <= 1 ->
    data <> [] ->
    (0 < m)%nat ->
    Forall (fun c => List.length (snd c) = m) data ->
    let n := List.length data in
    let rh := (if rowheader then 1 else 0)%nat in
    let colwidth := width / qnat (n + rh) in
    let res := create_table self [x; y; width; height] data rowheader w in
    fst res = Ok tt
    /\ exists grid,
         drawn self (snd res)
         = drawn self w ++ grid
           ++ [HLine (y - 0.069 - (qnat (m - 1) * 0.025))
                 (x + 0.01 + qnat (n - 1) * colwidth) (x + qnat n * colwidth)
                 light_gray 1]
         /\ List.length grid = (2 + n + 2 * m * n + 2 * m * rh)%nat.
Proof.
  intros self x y width height data rowheader m w Hal Hb Hne Hm Hrect
         n rh colwidth res.
  subst res.
  assert (Hn : (List.length data + (if rowheader then 1 else 0) <> 0)%nat)
    by (destruct data; [congruence|simpl; lia]).
  rewrite (@create_table_run self x y width height data rowheader w Hb Hn).
  fold n rh colwidth.
  rewrite (body_row_rectangular Hm Hrect Hne None).
  assert (Hcol : last_index 0 data None = Some (n - 1)%nat).
  { subst n. destruct data as [|d data]; [congruence|]. reflexivity. }
  rewrite Hcol.
  unfold closing_divider, local, bind, ret, ax_axhline. cbn [fst snd].
  split; [reflexivity|].
  rewrite paint_paint, drawn_paint by assumption.
  exists (grid_artists x y width colwidth rowheader data).
  replace (n - 1 + 1)%nat with n
    by (subst n; destruct data; [congruence|simpl; lia]).
  split; [reflexivity|].
  unfold grid_artists. rewrite !length_app, length_header_artists, length_map.
  rewrite (length_body_artists x y colwidth rowheader Hrect 0).
  fold n. simpl List.length. simpl Nat.eqb. subst rh.
  destruct rowheader; destruct data as [|d data]; try congruence; simpl andb;
    cbv iota; lia.
Qed.

Lemma rectangular_table_witness :
  alive report0 page0
  /\ 0.1 + 0.8 <= 1
  /\ labs <> []
  /\ (0 < 2)%nat
  /\ Forall (fun c : string * list (string * pyval) => List.length (snd c) = 2%nat)
       labs
  /\ fst (create_table report0 [0.1; 0.8; 0.8; 0.3] labs true page0) = Ok tt
  /\ exists grid,
       drawn report0
         (snd (create_table report0 [0.1; 0.8; 0.8; 0.3] labs true page0))
       = drawn report0 page0 ++ grid
         ++ [HLine (0.8 - 0.069 - (qnat (2 - 1) * 0.025))
               (0.1 + 0.01 + qnat (2 - 1) * (0.8 / qnat (2 + 1)))
               (0.1 + qnat 2 * (0.8 / qnat (2 + 1))) light_gray 1]
       /\ List.length grid = (2 + 2 + 2 * 2 * 2 + 2 * 2 * 1)%nat.
Proof.
  assert (Hb : 0.1 + 0.8 <= 1) by (vm_compute; discriminate).
  assert (Hne : labs <> []) by discriminate.
  assert (Hm : (0 < 2)%nat) by lia.
  assert (Hr : Forall (fun c : string * list (string * pyval) =>
                         List.length (snd c) = 2%nat) labs)
    by (repeat constructor).
  refine (conj alive_page0 (conj Hb (conj Hne (conj Hm (conj Hr _))))).
  exact (@rectangular_table_is_closed_by_one_divider report0 0.1 0.8 0.8 0.3
           labs true 2 page0 alive_page0 Hb Hne Hm Hr).
Defined.

(** X14.  With the row header, the labels of the rows are those of the
    first column: the key of its row [r] is drawn in bold at [x + 0.01] on
    the line of that row, over a divider from [x] to [x + colwidth]. *)
Theorem table_row_labels_come_from_the_first_column :
  forall (self : rhreports) (x y width height : Q) (name : string)
         (values : list (string * pyval)) (others : table) (w : world)
         (r : nat) (key : string) (value : pyval),
    alive self w ->
    x + width <= 1 ->
    nth_error values r = Some (key, value) ->
    let data := (name, values) :: others in
    let colwidth := width / qnat (List.length data + 1) in
    let res := create_table self [x; y; width; height] data true w in
    In (Text (x + 0.01) (y - 0.06 - (qnat r * 0.025)) (PStr key)
          (kw bold (Points 8) None))
       (drawn self (snd res))
    /\ In (HLine (y - 0.069 - (qnat r * 0.025)) x (x + colwidth) light_gray 1)
          (drawn self (snd res)).
Proof.
  intros self x y width height name values others w r key value Hal Hb Hr
         data colwidth res.
  subst res.
  assert (Hn : (List.length data + 1 <> 0)%nat) by lia.
  rewrite (@create_table_run self x y width height data true w Hb Hn).
  fold colwidth.
  set (grid := grid_artists x y width colwidth true data).
  destruct (closing_divider_paints self x y colwidth (last_index 0 data None)
              (body_row data None) (paint self grid w)) as (tail & Etail).
  rewrite Etail, paint_paint, drawn_paint by assumption.
  assert (Hcell : incl (cell_artists x y colwidth true 0 r (key, value)) grid).
  { intros a Ha. unfold grid, grid_artists.
    apply in_or_app; right; apply in_or_app; right; apply in_or_app; right.
    apply (@body_artists_incl x y colwidth true data 0 0 name values eq_refl).
    apply (@rows_artists_incl x y colwidth true 0 values 0 r (key, value) Hr).
    exact Ha. }
  split; apply in_or_app; right; apply in_or_app; left; apply Hcell;
    unfold cell_artists; simpl; auto.
Qed.

Lemma table_row_labels_witness :
  alive report0 page0
  /\ 0.1 + 0.8 <= 1
  /\ nth_error [("Hb"%string, PInt 7); ("CRP"%string, PInt 12)] 1
     = Some ("CRP"%string, PInt 12)
  /\ In (Text (0.1 + 0.01) (0.8 - 0.06 - (qnat 1 * 0.025)) (PStr "CRP")
           (kw bold (Points 8) None))
        (drawn report0
           (snd (create_table report0 [0.1; 0.8; 0.8; 0.3] labs true page0))).
Proof.
  assert (Hb : 0.1 + 0.8 <= 1) by (vm_compute; discriminate).
  refine (conj alive_page0 (conj Hb (conj eq_refl _))).
  exact (proj1 (@table_row_labels_come_from_the_first_column report0 0.1 0.8
                  0.8 0.3 "Before"
                  [("Hb"%string, PInt 7); ("CRP"%string, PInt 12)]
                  [("After"%string, [("Hb"%string, PInt 8); ("CRP"%string, PInt 3)])]
                  page0 1 "CRP" (PInt 12) alive_page0 Hb eq_refl)).
Defined.

Lemma header_artists_bold_at (x y colwidth : Q) (rowheader : nat)
  (keys : list string) :
  forall col,
    Forall (bold_only_at (y - 0.03))
      (header_artists x y colwidth rowheader col keys).
Proof.
  induction keys as [|k rest IH]; intros col; simpl; constructor.
  - simpl. reflexivity.
  - apply IH.
Qed.

Lemma rows_artists_not_bold (x y colwidth ybase : Q) (col : nat)
  (values : list (string * pyval)) :
  forall row,
    Forall (bold_only_at ybase)
      (rows_artists x y colwidth false col row values).
Proof.
  induction values as [|v rest IH]; intros row; simpl; [constructor|].
  apply Forall_app. split; [|apply IH].
  unfold cell_artists. rewrite andb_false_r. simpl.
  repeat constructor; simpl; discriminate.
Qed.

Lemma body_artists_not_bold (x y colwidth ybase : Q) (items : table) :
  forall col,
    Forall (bold_only_at ybase) (body_artists x y colwidth false col items).
Proof.
  induction items as [|[name values] rest IH]; intros col; simpl;
    [constructor|].
  apply Forall_app. split; [apply rows_artists_not_bold|apply IH].
Qed.

(** X15.  Without the row header no row label is drawn: of all that
    [create_table] puts on the surface, the only texts in bold are the
    column headers on the line [y - 0.03]. *)
Theorem table_without_row_header_draws_no_labels :
  forall (self : rhreports) (x y width height : Q) (data : table) (w : world),
    alive self w ->
    x + width <= 1 ->
    data <> [] ->
    exists new,
      drawn self (snd (create_table self [x; y; width; height] data false w))
      = drawn self w ++ new
      /\ Forall (bold_only_at (y - 0.03)) new.
Proof.
  intros self x y width height data w Hal Hb Hne.
  assert (Hn : (List.length data + 0 <> 0)%nat)
    by (destruct data; [congruence|simpl; lia]).
  rewrite (@create_table_run self x y width height data false w Hb Hn).
  set (colwidth := width / qnat (List.length data + 0)).
  set (grid := grid_artists x y width colwidth false data).
  assert (Hgrid : Forall (bold_only_at (y - 0.03)) grid).
  { unfold grid, grid_artists. apply Forall_app. split; [repeat constructor|].
    apply Forall_app. split; [apply header_artists_bold_at|].
    apply Forall_app. split; [repeat constructor|].
    apply body_artists_not_bold. }
  unfold closing_divider, local, bind, ret, raise, ax_axhline.
  destruct (last_index 0 data None) as [c|];
    [destruct (body_row data None) as [r|]|]; cbn [fst snd].
  - rewrite paint_paint, drawn_paint by assumption. eexists.
    split; [reflexivity|]. apply Forall_app. split; [exact Hgrid|].
    repeat constructor.
  - rewrite drawn_paint by assumption. eauto.
  - rewrite drawn_paint by assumption. eauto.
Qed.

Lemma table_without_row_header_witness :
  alive report0 page0
  /\ 0.1 + 0.8 <= 1
  /\ labs <> []
  /\ exists new,
       drawn report0
         (snd (create_table report0 [0.1; 0.8; 0.8; 0.3] labs false page0))
       = drawn report0 page0 ++ new
       /\ Forall (bold_only_at (0.8 - 0.03)) new.
Proof.
  assert (Hb : 0.1 + 0.8 <= 1) by (vm_compute; discriminate).
  assert (Hne : labs <> []) by discriminate.
  refine (conj alive_page0 (conj Hb (conj Hne _))).
  exact (@table_without_row_header_draws_no_labels report0 0.1 0.8 0.8 0.3
           labs page0 alive_page0 Hb Hne).
Defined.

(** ** More on the footer *)

Section FooterSteps.

Variable imread : option string -> result image.
Variable rc_text_color : colour.
Variables (self : rhreports) (data : footer).
Variables mt mr mb ml : Q.
Hypothesis margins : margin self = [mt; mr; mb; ml].

Lemma footer_ypos (ypos : option Q) (w : world) :
  (match ypos with
   | None => index (margin self) 2
   | Some y => ret y
   end) w = (Ok (default ypos mb), w).
Proof. destruct ypos; [reflexivity|]. unfold index. now rewrite margins. Qed.

Lemma appending_footer_step (ypos : Q) (pos : zone) :
  appending self (footer_step imread rc_text_color self data ypos pos).
Proof. unfold footer_step. append. Qed.

(** The text branch of one step. *)
Lemma footer_step_text (ypos : Q) (pos : zone) (e : entry) (w : world) :
  lookup data (zone_name pos) = Some e ->
  e_type e = Some "text"%string ->
  footer_step imread rc_text_color self data ypos pos w
  = match e_content e with
    | Some content =>
        (Ok tt,
         paint self [Text (text_anchor pos mr ml) ypos content
                       (footer_kw rc_text_color pos e)] w)
    | None => (Raise (KeyError "content"), w)
    end.
Proof.
  intros Hl Hty. unfold footer_step. rewrite Hl. unfold getitem. rewrite Hty.
  cbn [bind ret String.eqb Ascii.eqb Bool.eqb].
  rewrite (@bind_run _ _ _ _ w (text_anchor pos mr ml) w).
  2:{ destruct pos; unfold index, bind; try rewrite margins; reflexivity. }
  destruct (e_content e) as [content|]; reflexivity.
Qed.

(** The image branch of one step, once the file is read. *)
Lemma footer_step_image_run (ypos : Q) (pos : zone) (e : entry)
  (path : string) (im : image) (w : world) :
  lookup data (zone_name pos) = Some e ->
  e_type e = Some "img"%string ->
  e_src e = Some path ->
  imread (Some path) = Ok im ->
  let height := default (e_height e) ((1 - mt - ypos) / 15) in
  let width := qnat (shape1 im) * height / qnat (shape0 im) in
  footer_step imread rc_text_color self data ypos pos w
  = if Nat.eqb (shape0 im) 0 then (Raise ZeroDivisionError, w)
    else (Ok tt,
          on_fig (fig self)
            (push_all [image_axes [image_left pos mr ml width; ypos - 0.008;
                                   width; height] im]) w).
Proof.
  intros Hl Hty Hs Him height width. unfold footer_step.
  rewrite Hl. unfold getitem. rewrite Hty.
  cbn [bind ret String.eqb Ascii.eqb Bool.eqb].
  rewrite Hs. cbn [bind ret]. rewrite Him.
  rewrite (@bind_run _ _ _ _ w height w).
  2:{ subst height. destruct (e_height e); [reflexivity|].
      unfold index, bind. now rewrite margins. }
  destruct (Nat.eqb_spec (shape0 im) 0) as [E0|N0].
  - rewrite (@bind_fail _ _ _ _ w ZeroDivisionError w); [reflexivity|].
    unfold py_div. now rewrite E0.
  - assert (Hq : Qeq_bool (qnat (shape0 im)) 0 = false).
    { apply not_true_iff_false. intros E. apply Qeq_bool_iff in E.
      revert E. apply qnat_nonzero. lia. }
    rewrite (@bind_run _ _ _ _ w width w)
      by (unfold py_div; now rewrite Hq).
    rewrite (@bind_run _ _ _ _ w (image_left pos mr ml width) w).
    2:{ destruct pos; unfold index, bind; try rewrite margins; reflexivity. }
    unfold bind, fig_add_axes, ax_imshow, ax_axis_off. cbn [fst snd].
    rewrite !on_fig_on_fig. f_equal.
    unfold on_fig. f_equal.
    generalize (fig self) as i. intros i.
    destruct (nth_error (figs w) i) as [g|] eqn:Hg.
    + revert i Hg. induction (figs w) as [|g0 fs IH]; intros [|i] Hg;
        simpl in *; try discriminate.
      * inversion Hg; subst g0. f_equal.
        unfold on_added, push_axes, push_all. simpl. f_equal.
        now rewrite !update_last.
      * f_equal. now apply IH.
    + revert i Hg. induction (figs w) as [|g0 fs IH]; intros [|i] Hg;
        simpl in *; try discriminate; try reflexivity.
      f_equal. now apply IH.
Qed.

(** [set_footer] on a footer with an entry for one zone only. *)
Lemma set_footer_only (ypos : option Q) (pos : zone) (w : world) :
  (forall z, z <> pos -> lookup data (zone_name z) = None) ->
  set_footer imread rc_text_color self data ypos w
  = footer_step imread rc_text_color self data (default ypos mb) pos w.
Proof.
  intros Hothers. unfold set_footer.
  rewrite (@bind_run _ _ _ _ _ _ _ (footer_ypos ypos w)).
  set (y := default ypos mb).
  destruct pos.
  - rewrite (@footer_step_absent imread rc_text_color self data y center)
      by (apply Hothers; discriminate).
    rewrite (@footer_step_absent imread rc_text_color self data y right)
      by (apply Hothers; discriminate).
    unfold bind, ret.
    now destruct (footer_step imread rc_text_color self data y left w)
      as [[[]|ex] w1].
  - rewrite (@footer_step_absent imread rc_text_color self data y left)
      by (apply Hothers; discriminate).
    rewrite (@footer_step_absent imread rc_text_color self data y right)
      by (apply Hothers; discriminate).
    unfold bind, ret.
    now destruct (footer_step imread rc_text_color self data y center w)
      as [[[]|ex] w1].
  - rewrite (@footer_step_absent imread rc_text_color self data y left)
      by (apply Hothers; discriminate).
    rewrite (@footer_step_absent imread rc_text_color self data y center)
      by (apply Hothers; discriminate).
    reflexivity.
Qed.

End FooterSteps.

Lemma In_drawn_kept (self : rhreports) {A} (m : M A) (w : world) (t : artist) :
  appending self m -> alive self w ->
  In t (drawn self w) -> In t (drawn self (snd (m w))).
Proof.
  intros Hm Hal Hin. destruct (Hm w Hal) as (_ & l & E).
  rewrite E. apply in_or_app. now left.
Qed.

(** X16.  A text entry of a footer that [set_footer] renders is drawn at
    the height of the footer, anchored by its zone: at [margin[3]] for
    ['left'], at [0.5] for ['center'], at [1 - margin[1]] for ['right'],
    aligned as the zone is named, with the font size ['x-small'], the line
    spacing [1.5] and the configured text colour where the entry gives
    none. *)
Theorem footer_text_is_anchored_by_zone :
  forall (imread : option string -> result image) (rc_text_color : colour)
         (self : rhreports) (data : footer) (ypos : option Q) (w : world)
         (pos : zone) (e : entry) (content : pyval) (mt mr mb ml : Q),
    alive self w ->
    margin self = [mt; mr; mb; ml] ->
    lookup data (zone_name pos) = Some e ->
    e_type e = Some "text"%string ->
    e_content e = Some content ->
    fst (set_footer imread rc_text_color self data ypos w) = Ok tt ->
    In (Text (text_anchor pos mr ml) (default ypos mb) content
          (footer_kw rc_text_color pos e))
       (drawn self (snd (set_footer imread rc_text_color self data ypos w))).
Proof.
  intros imread rc self data ypos w pos e content mt mr mb ml
         Hal Hm Hl Hty Hc.
  unfold set_footer.
  rewrite (@bind_run _ _ _ _ _ _ _ (@footer_ypos self mt mr mb ml Hm ypos w)).
  set (y := default ypos mb). intros Hok.
  set (step := footer_step imread rc self data y) in *.
  apply bind_ok in Hok as ([] & H1 & E1 & Hok). rewrite E1. clear E1.
  apply bind_ok in Hok as ([] & H2 & E2 & H3). rewrite E2. clear E2.
  set (w1 := snd (step left w)) in *.
  set (w2 := snd (step center w1)) in *.
  assert (A1 : alive self w1)
    by (apply (@appending_footer_step imread rc self data y left w Hal)).
  assert (A2 : alive self w2)
    by (apply (@appending_footer_step imread rc self data y center w1 A1)).
  assert (Hstep : forall z w0,
             alive self w0 -> z = pos ->
             In (Text (text_anchor pos mr ml) y content (footer_kw rc pos e))
                (drawn self (snd (step z w0)))).
  { intros z w0 A0 ->. unfold step.
    rewrite (@footer_step_text imread rc self data mt mr mb ml Hm y pos e w0
               Hl Hty), Hc.
    cbn [snd]. rewrite drawn_paint by assumption.
    apply in_or_app. right. now left. }
  destruct pos.
  - apply (@In_drawn_kept self _ (step right) w2 _
             (@appending_footer_step imread rc self data y right) A2).
    apply (@In_drawn_kept self _ (step center) w1 _
             (@appending_footer_step imread rc self data y center) A1).
    now apply Hstep.
  - apply (@In_drawn_kept self _ (step right) w2 _
             (@appending_footer_step imread rc self data y right) A2).
    now apply Hstep.
  - now apply Hstep.
Qed.

Lemma footer_text_witness :
  alive report0 page0
  /\ margin report0 = [0.075; 0.075; 0.05; 0.075]
  /\ lookup letterhead (zone_name left) = Some (text_entry "Region H")
  /\ fst (set_footer imread_logo black report0 letterhead None page0) = Ok tt
  /\ In (Text 0.075 0.05 (PStr "Region H")
           (footer_kw black left (text_entry "Region H")))
        (drawn report0
           (snd (set_footer imread_logo black report0 letterhead None page0))).
Proof.
  refine (conj alive_page0 (conj eq_refl (conj eq_refl (conj eq_refl _)))).
  exact (@footer_text_is_anchored_by_zone imread_logo black report0 letterhead
           None page0 left (text_entry "Region H") (PStr "Region H")
           0.075 0.075 0.05 0.075 alive_page0 eq_refl eq_refl eq_refl eq_refl
           eq_refl).
Defined.

(** X17.  An image entry of a footer that [set_footer] renders gets an
    axes of its own, frame off, interpolation ['none'], with its lower edge
    at [ypos - 0.008].  Its left edge follows the zone: at [margin[3]] for
    ['left']; for ['center'] the image is centred on [0.5]; for ['right']
    its right edge is at [1 - margin[1]].  The image then has at least one
    row of pixels. *)
Theorem footer_image_is_placed_by_zone :
  forall (imread : option string -> result image) (rc_text_color : colour)
         (self : rhreports) (data : footer) (ypos : option Q) (w : world)
         (pos : zone) (e : entry) (path : string) (im : image)
         (mt mr mb ml : Q),
    alive self w ->
    margin self = [mt; mr; mb; ml] ->
    lookup data (zone_name pos) = Some e ->
    e_type e = Some "img"%string ->
    e_src e = Some path ->
    imread (Some path) = Ok im ->
    fst (set_footer imread rc_text_color self data ypos w) = Ok tt ->
    let y := default ypos mb in
    let height := default (e_height e) ((1 - mt - y) / 15) in
    let width := qnat (shape1 im) * height / qnat (shape0 im) in
    let xpos := image_left pos mr ml width in
    In (image_axes [xpos; y - 0.008; width; height] im)
       (added_axes self
          (snd (set_footer imread rc_text_color self data ypos w)))
    /\ shape0 im <> O
    /\ match pos with
       | left => xpos = ml
       | center => xpos + width / 2 == 0.5
       | right => xpos + width == 1 - mr
       end.
Proof.
  intros imread rc self data ypos w pos e path im mt mr mb ml
         Hal Hm Hl Hty Hs Him.
  unfold set_footer.
  rewrite (@bind_run _ _ _ _ _ _ _ (@footer_ypos self mt mr mb ml Hm ypos w)).
  set (y := default ypos mb). intros Hok. cbv zeta.
  set (height := default (e_height e) ((1 - mt - y) / 15)).
  set (width := qnat (shape1 im) * height / qnat (shape0 im)).
  set (step := footer_step imread rc self data y) in *.
  apply bind_ok in Hok as ([] & H1 & E1 & Hok). rewrite E1. clear E1.
  apply bind_ok in Hok as ([] & H2 & E2 & H3). rewrite E2. clear E2.
  set (w1 := snd (step left w)) in *.
  set (w2 := snd (step center w1)) in *.
  assert (K1 : grows self w w1) by now apply footer_step_keeping.
  assert (K2 : grows self w1 w2) by (apply footer_step_keeping; apply K1).
  assert (K3 : grows self w2 (snd (step right w2)))
    by (apply footer_step_keeping; apply K2).
  assert (Hstep : forall w0,
             alive self w0 -> fst (step pos w0) = Ok tt ->
             In (image_axes [image_left pos mr ml width; y - 0.008; width;
                             height] im)
                (added_axes self (snd (step pos w0)))
             /\ shape0 im <> O).
  { intros w0 A0. unfold step.
    rewrite (@footer_step_image_run imread rc self data mt mr mb ml Hm y pos e
               path im w0 Hl Hty Hs Him).
    fold height width.
    destruct (Nat.eqb_spec (shape0 im) 0) as [E0|N0]; [discriminate|].
    intros _. split; [|exact N0]. cbn [snd].
    destruct A0 as (g & a & Hg & Ha).
    unfold added_axes. rewrite surface_on_fig, Hg. simpl.
    apply in_or_app. right. now left. }
  assert (Hedge : match pos with
                  | left => image_left pos mr ml width = ml
                  | center => image_left pos mr ml width + width / 2 == 0.5
                  | right => image_left pos mr ml width + width == 1 - mr
                  end).
  { destruct pos; simpl; [reflexivity|ring|ring]. }
  destruct pos.
  - destruct (Hstep w Hal H1) as [Hin N0].
    repeat apply conj; [|exact N0|exact Hedge].
    apply (proj2 K3), (proj2 K2). exact Hin.
  - destruct (Hstep w1 (proj1 K1) H2) as [Hin N0].
    repeat apply conj; [|exact N0|exact Hedge].
    apply (proj2 K3). exact Hin.
  - destruct (Hstep w2 (proj1 K2) H3) as [Hin N0].
    repeat apply conj; [exact Hin|exact N0|exact Hedge].
Qed.

Lemma footer_image_placed_witness :
  alive report0 page0
  /\ margin report0 = [0.075; 0.075; 0.05; 0.075]
  /\ fst (set_footer imread_logo black report0 letterhead None page0) = Ok tt
  /\ In (image_axes
           [image_left right 0.075 0.075 (qnat 120 * 0.05 / qnat 40);
            0.05 - 0.008; qnat 120 * 0.05 / qnat 40; 0.05] logo)
        (added_axes report0
           (snd (set_footer imread_logo black report0 letterhead None page0))).
Proof.
  refine (conj alive_page0 (conj eq_refl (conj eq_refl _))).
  exact (proj1 (@footer_image_is_placed_by_zone imread_logo black report0
                  letterhead None page0 right
                  (img_entry (Some "logo.png"%string) (Some 0.05)) "logo.png"
                  logo 0.075 0.075 0.05 0.075 alive_page0 eq_refl eq_refl
                  eq_refl eq_refl eq_refl eq_refl)).
Defined.

(** X18.  In a footer with an entry for one zone only, an image that
    cannot be used fails the call and leaves the world as it was: an
    exception of [plt.imread] on the given path is passed on as it is, and
    an image without rows raises the division error of the width. *)
Theorem footer_image_errors_leave_no_trace :
  forall (imread : option string -> result image) (rc_text_color : colour)
         (self : rhreports) (data : footer) (ypos : option Q) (w : world)
         (pos : zone) (e : entry) (path : string) (mt mr mb ml : Q),
    margin self = [mt; mr; mb; ml] ->
    (forall z, z <> pos -> lookup data (zone_name z) = None) ->
    lookup data (zone_name pos) = Some e ->
    e_type e = Some "img"%string ->
    e_src e = Some path ->
    match imread (Some path) with
    | Raise ex =>
        set_footer imread rc_text_color self data ypos w = (Raise ex, w)
    | Ok im =>
        shape0 im = O ->
        set_footer imread rc_text_color self data ypos w
        = (Raise ZeroDivisionError, w)
    end.
Proof.
  intros imread rc self data ypos w pos e path mt mr mb ml Hm Honly Hl Hty Hs.
  rewrite (@set_footer_only imread rc self data mt mr mb ml Hm ypos pos w Honly).
  destruct (imread (Some path)) as [im|ex] eqn:Him.
  - intros E0.
    rewrite (@footer_step_image_run imread rc self data mt mr mb ml Hm _ pos e
               path im w Hl Hty Hs Him).
    now rewrite E0.
  - unfold footer_step. rewrite Hl. unfold getitem. rewrite Hty.
    cbn [bind ret String.eqb Ascii.eqb Bool.eqb].
    rewrite Hs. cbn [bind ret]. now rewrite Him.
Qed.

Lemma footer_image_errors_witness :
  margin report0 = [0.075; 0.075; 0.05; 0.075]
  /\ lookup [("center"%string, img_entry (Some "seal.png"%string) None)]
       (zone_name center)
     = Some (img_entry (Some "seal.png"%string) None)
  /\ set_footer imread_logo black report0
       [("center"%string, img_entry (Some "seal.png"%string) None)] None page0
     = (Raise (FileNotFoundError "seal.png"), page0).
Proof.
  refine (conj eq_refl (conj eq_refl _)).
  refine (@footer_image_errors_leave_no_trace imread_logo black report0
            [("center"%string, img_entry (Some "seal.png"%string) None)] None
            page0 center (img_entry (Some "seal.png"%string) None) "seal.png"
            0.075 0.075 0.05 0.075 eq_refl _ eq_refl eq_refl eq_refl).
  intros z Hz. destruct z; try reflexivity. congruence.
Defined.

(** X19.  In a footer with an entry for one zone only, an entry without
    the key ['type'] raises the key error for ['type'], and a text entry
    without ['content'] raises the key error for ['content']; nothing is
    drawn. *)
Theorem footer_entry_without_required_key :
  forall (imread : option string -> result image) (rc_text_color : colour)
         (self : rhreports) (data : footer) (ypos : option Q) (w : world)
         (pos : zone) (e : entry) (mt mr mb ml : Q),
    margin self = [mt; mr; mb; ml] ->
    (forall z, z <> pos -> lookup data (zone_name z) = None) ->
    lookup data (zone_name pos) = Some e ->
    (e_type e = None ->
     set_footer imread rc_text_color self data ypos w
     = (Raise (KeyError "type"), w))
    /\ (e_type e = Some "text"%string ->
        e_content e = None ->
        set_footer imread rc_text_color self data ypos w
        = (Raise (KeyError "content"), w)).
Proof.
  intros imread rc self data ypos w pos e mt mr mb ml Hm Honly Hl.
  rewrite (@set_footer_only imread rc self data mt mr mb ml Hm ypos pos w Honly).
  split.
  - intros Hty. unfold footer_step. rewrite Hl. unfold getitem.
    now rewrite Hty.
  - intros Hty Hc.
    rewrite (@footer_step_text imread rc self data mt mr mb ml Hm _ pos e w
               Hl Hty).
    now rewrite Hc.
Qed.

Lemma footer_entry_without_key_witness :
  margin report0 = [0.075; 0.075; 0.05; 0.075]
  /\ lookup [("left"%string, no_entry)] (zone_name left) = Some no_entry
  /\ e_type no_entry = None
  /\ set_footer imread_logo black report0 [("left"%string, no_entry)] None page0
     = (Raise (KeyError "type"), page0).
Proof.
  refine (conj eq_refl (conj eq_refl (conj eq_refl _))).
  refine (proj1 (@footer_entry_without_required_key imread_logo black report0
                   [("left"%string, no_entry)] None page0 left no_entry
                   0.075 0.075 0.05 0.075 eq_refl _ eq_refl) eq_refl).
  intros z Hz. destruct z; try reflexivity. congruence.
Defined.

(** X20.  [set_footer] reads the footer through the keys ['left'],
    ['center'] and ['right'] only and visits them in this order: two
    footers that agree on these three keys are treated alike, whatever the
    order of their keys and whatever other keys they hold. *)
Theorem footer_reads_its_three_zones_only :
  forall (imread : option string -> result image) (rc_text_color : colour)
         (self : rhreports) (d1 d2 : footer) (ypos : option Q) (w : world),
    (forall z, lookup d1 (zone_name z) = lookup d2 (zone_name z)) ->
    set_footer imread rc_text_color self d1 ypos w
    = set_footer imread rc_text_color self d2 ypos w.
Proof.
  intros imread rc self d1 d2 ypos w Hsame.
  assert (Hstep : forall y z w0,
             footer_step imread rc self d1 y z w0
             = footer_step imread rc self d2 y z w0).
  { intros y z w0. unfold footer_step. now rewrite Hsame. }
  unfold set_footer. apply bind_ext; [reflexivity|]. intros y w0.
  apply bind_ext; [apply Hstep|]. intros _ w1.
  apply bind_ext; [apply Hstep|]. intros _ w2. apply Hstep.
Qed.

Lemma footer_reads_its_zones_witness :
  (forall z, lookup letterhead (zone_name z)
             = lookup shuffled_letterhead (zone_name z))
  /\ set_footer imread_logo black report0 letterhead None page0
     = set_footer imread_logo black report0 shuffled_letterhead None page0.
Proof.
  assert (H : forall z, lookup letterhead (zone_name z)
                        = lookup shuffled_letterhead (zone_name z))
    by (intros z; destruct z; reflexivity).
  refine (conj H _).
  exact (@footer_reads_its_three_zones_only imread_logo black report0
           letterhead shuffled_letterhead None page0 H).
Defined.



(** ** The right edge of the table *)

(** X22.  The dividers of the last data column end at the right edge of
    the region: under every cell of column [n - 1] there is a divider from
    [x + 0.01 + (n - 1 + rh) * colwidth] to a point equal to [x + width]. *)
Theorem table_last_column_ends_at_the_right_edge :
  forall (self : rhreports) (x y width height : Q) (data : table)
         (rowheader : bool) (w : world) (name : string)
         (values : list (string * pyval)) (r : nat) (key : string)
         (value : pyval),
    alive self w ->
    x + width <= 1 ->
    nth_error data (List.length data - 1) = Some (name, values) ->
    nth_error values r = Some (key, value) ->
    let n := List.length data in
    let rh := (if rowheader then 1 else 0)%nat in
    let colwidth := width / qnat (n + rh) in
    let xmax := x + qnat (n - 1 + rh + 1) * colwidth in
    In (HLine (y - 0.069 - (qnat r * 0.025))
          (x + 0.01 + qnat (n - 1 + rh) * colwidth) xmax light_gray 1)
       (drawn self (snd (create_table self [x; y; width; height] data
                           rowheader w)))
    /\ xmax == x + width.
Proof.
  intros self x y width height data rowheader w name values r key value
         Hal Hb Hc Hr n rh colwidth xmax.
  assert (Hlen : (0 < n)%nat).
  { subst n. destruct data; [now destruct (0 - 1)%nat|simpl; lia]. }
  assert (Hn : (List.length data + rh <> 0)%nat) by (fold n; lia).
  split.
  - rewrite (@create_table_run self x y width height data rowheader w Hb Hn).
    fold n rh colwidth.
    set (grid := grid_artists x y width colwidth rowheader data).
    destruct (closing_divider_paints self x y colwidth
                (last_index 0 data None) (body_row data None)
                (paint self grid w)) as (tail & Etail).
    rewrite Etail, paint_paint, drawn_paint by assumption.
    apply in_or_app; right; apply in_or_app; left.
    unfold grid, grid_artists.
    apply in_or_app; right; apply in_or_app; right; apply in_or_app; right.
    apply (@body_artists_incl x y colwidth rowheader data 0 (n - 1) name
             values Hc).
    apply (@rows_artists_incl x y colwidth rowheader (n - 1) values 0 r
             (key, value) Hr).
    unfold cell_artists. apply in_or_app. right. simpl. auto.
  - subst xmax colwidth.
    replace (n - 1 + rh + 1)%nat with (n + rh)%nat by lia.
    assert (Hq : ~ qnat (n + rh) == 0) by (apply qnat_nonzero; lia).
    field. exact Hq.
Qed.

Lemma table_last_column_witness :
  alive report0 page0
  /\ 0.1 + 0.8 <= 1
  /\ nth_error labs (List.length labs - 1)
     = Some ("After"%string, [("Hb"%string, PInt 8); ("CRP"%string, PInt 3)])
  /\ In (HLine (0.8 - 0.069 - (qnat 0 * 0.025))
           (0.1 + 0.01 + qnat (2 - 1 + 1) * (0.8 / qnat (2 + 1)))
           (0.1 + qnat (2 - 1 + 1 + 1) * (0.8 / qnat (2 + 1))) light_gray 1)
        (drawn report0
           (snd (create_table report0 [0.1; 0.8; 0.8; 0.3] labs true page0)))
  /\ 0.1 + qnat (2 - 1 + 1 + 1) * (0.8 / qnat (2 + 1)) == 0.1 + 0.8.
Proof.
  assert (Hb : 0.1 + 0.8 <= 1) by (vm_compute; discriminate).
  refine (conj alive_page0 (conj Hb (conj eq_refl _))).
  exact (@table_last_column_ends_at_the_right_edge report0 0.1 0.8 0.8
           0.3 labs true page0 "After"
           [("Hb"%string, PInt 8); ("CRP"%string, PInt 3)] 0 "Hb"
           (PInt 8) alive_page0 Hb eq_refl eq_refl).
Defined.

(** ** Two reports and one file *)

(** X23.  [save] follows pyplot's current figure, not the report it is
    called on.  When a report [a] is created, then a report [b], and after
    any drawing on either of them [a] is saved, the file holds the figure
    of [b] as it is at the end; the figure of [a] is closed without having
    been written, and that of [b] stays open. *)
Theorem later_report_is_what_save_writes :
  forall (A : Type) (draw : rhreports -> rhreports -> M A)
         (filename : string) (w : world) (name : string),
    (forall a b, offstage (draw a b)) ->
    let script :=
      (a <- __init__ ;; b <- __init__ ;; draw a b ;; save a filename) in
    let a := report_at (List.length (figs w)) in
    let b := report_at (S (List.length (figs w))) in
    fst (script w) = Ok name ->
    name = filename
    /\ read_file (disk (snd (script w))) filename = surface b (snd (script w))
    /\ read_file (disk (snd (script w))) filename <> None
    /\ open_figs (snd (script w))
       = filter (fun j => negb (Nat.eqb j (fig a)))
           (open_figs w ++ [fig a; fig b]).
Proof.
  intros A draw filename w name Hoff script a b. subst script.
  rewrite (@bind_run _ _ _ _ w _ _ (init_run w)).
  set (w0 := {| figs := figs w ++ [blank_page];
                open_figs := open_figs w ++ [List.length (figs w)];
                stdout := stdout w; disk := disk w |}).
  rewrite (@bind_run _ _ _ _ w0 _ _ (init_run w0)).
  assert (Eb : report_at (List.length (figs w0)) = b).
  { subst b w0. simpl. rewrite length_app. simpl. f_equal. lia. }
  rewrite Eb. fold a.
  set (w1 := {| figs := figs w0 ++ [blank_page];
                open_figs := open_figs w0 ++ [List.length (figs w0)];
                stdout := stdout w0; disk := disk w0 |}).
  destruct (Hoff a b w1) as (Hopen & _ & Hlen).
  destruct (draw a b w1) as [[r|e] w2] eqn:Ed.
  2:{ now rewrite (@bind_fail _ _ _ _ w1 e w2 Ed). }
  rewrite (@bind_run _ _ _ _ w1 r w2 Ed).
  cbn [snd] in Hopen, Hlen.
  assert (Elen : List.length (figs w0) = fig b).
  { subst b w0. simpl. rewrite length_app. simpl. lia. }
  assert (Hcur : last_open (open_figs w2) = Some (fig b)).
  { rewrite Hopen. subst w1. cbn [open_figs]. rewrite Elen.
    apply last_open_app. }
  destruct (nth_error (figs w2) (fig b)) as [g|] eqn:Hg.
  2:{ apply nth_error_None in Hg. rewrite Hlen in Hg. subst w1.
      cbn [figs] in Hg. rewrite length_app, Elen in Hg. simpl in Hg. lia. }
  rewrite (save_writes_current_figure a filename w2 Hcur Hg). cbn [fst snd].
  intros Hname. inversion Hname; subst name.
  repeat apply conj.
  - reflexivity.
  - unfold surface. cbn [disk figs read_file]. rewrite String.eqb_refl.
    symmetry. exact Hg.
  - cbn [disk read_file]. rewrite String.eqb_refl. discriminate.
  - cbn [open_figs]. rewrite Hopen. subst w1 w0. cbn [open_figs figs].
    rewrite <- app_assoc. simpl. rewrite length_app. simpl.
    repeat f_equal. lia.
Qed.

Lemma later_report_witness :
  let script :=
    (a <- __init__ ;; b <- __init__ ;;
     set_demographics b [0.1; 0.8; 0.8; 0.04] patient ;;
     save a "a.pdf") in
  (forall a b : rhreports,
      offstage (set_demographics b [0.1; 0.8; 0.8; 0.04] patient))
  /\ fst (script boot) = Ok "a.pdf"%string
  /\ read_file (disk (snd (script boot))) "a.pdf"
     = surface (report_at 1) (snd (script boot)).
Proof.
  intros script.
  assert (Hoff : forall a b : rhreports,
             offstage (set_demographics b [0.1; 0.8; 0.8; 0.04] patient)).
  { intros a b.
    exact (proj1 (proj2 (proj2 (proj2
             (@drawing_stays_offstage b ruler imread_logo black))))
             [0.1; 0.8; 0.8; 0.04] patient). }
  refine (conj Hoff (conj eq_refl _)).
  exact (proj1 (proj2 (@later_report_is_what_save_writes unit
                         (fun a b => set_demographics b [0.1; 0.8; 0.8; 0.04]
                                       patient)
                         "a.pdf" boot "a.pdf" Hoff eq_refl))).
Defined.
